(** * Memory-mapped tensors of [tensordict/_memory_map.py]

    A shallow embedding of the module: the anonymous file region
    ([_FileHandler], [_reduce_handler], [_rebuild_handler]) and the typed
    buffer factory ([empty_like], [zeros_like], [ones_like], [from_tensor]).

    The Python code talks to the operating system (temporary files,
    descriptors, memory mappings) and to torch (tensors as views over a
    storage).  Both are modelled by an explicit [World]: the storage objects
    (file contents and heap blocks, as bytes), the directory entries, the
    descriptor table of the process and the registry of [util.Finalize].
    Every function of the module is a computation in a state-and-exception
    monad over that world; a raised exception keeps the world it was raised
    in, so that what a failed call leaves behind can be stated. *)

From Stdlib Require Import ZArith Lia.
From Stdlib.Strings Require Import Byte.
From stdpp Require Import base option list gmap strings pretty.

Local Open Scope string_scope.
Local Open Scope Z_scope.

(** ** Element types *)

Module Dtype.

(** The element types of [torch.dtype] the module can be handed. *)
Inductive dtype : Type :=
  | float16 | bfloat16 | float32 | float64
  | uint8 | int8 | int16 | int32 | int64
  | bool
  | complex64 | complex128.

#[global] Instance dtype_eq_dec : EqDecision dtype.
Proof. solve_decision. Defined.

(** [dtype.is_floating_point] *)
Definition is_floating_point (d : dtype) : Datatypes.bool :=
  match d with
  | float16 | bfloat16 | float32 | float64 => true
  | _ => false
  end.

(** [dtype.is_complex] *)
Definition is_complex (d : dtype) : Datatypes.bool :=
  match d with
  | complex64 | complex128 => true
  | _ => false
  end.

(** [dtype == torch.bool] *)
Definition is_bool (d : dtype) : Datatypes.bool :=
  match d with
  | bool => true
  | _ => false
  end.

(** The integer types: what is left for the [else] branch of [empty_like]. *)
Definition is_integer (d : dtype) : Datatypes.bool :=
  match d with
  | uint8 | int8 | int16 | int32 | int64 => true
  | _ => false
  end.

(** A supported element type: floating point, integer or boolean. *)
Definition supported (d : dtype) : Datatypes.bool :=
  is_floating_point d || is_integer d || is_bool d.

(** [torch.finfo(dtype).bits]; [None] where torch raises a [TypeError]. *)
Definition finfo_bits (d : dtype) : option nat :=
  match d with
  | float16 | bfloat16 => Some 16%nat
  | float32 => Some 32%nat
  | float64 => Some 64%nat
  | complex64 => Some 32%nat
  | complex128 => Some 64%nat
  | _ => None
  end.

(** [torch.iinfo(dtype).bits]; [None] where torch raises a [TypeError]. *)
Definition iinfo_bits (d : dtype) : option nat :=
  match d with
  | uint8 | int8 => Some 8%nat
  | int16 => Some 16%nat
  | int32 => Some 32%nat
  | int64 => Some 64%nat
  | _ => None
  end.

(** [dtype.itemsize]: the bytes of one element in a storage. *)
Definition itemsize (d : dtype) : nat :=
  match d with
  | float16 | bfloat16 | int16 => 2
  | float32 | int32 => 4
  | float64 | int64 | complex64 => 8
  | uint8 | int8 | bool => 1
  | complex128 => 16
  end%nat.

End Dtype.
Export Dtype.

(** ** Bytes and the encoding of scalars *)

Module Bits.

Definition byte_of_Z (z : Z) : byte :=
  default x00 (Byte.of_N (Z.to_N (z mod 256))).

(** [w] bytes of [v], least significant first (two's complement when [v] is
    negative). *)
Fixpoint encode_le (w : nat) (v : Z) : list byte :=
  match w with
  | O => []
  | S w' => byte_of_Z v :: encode_le w' (v / 256)
  end.

(** The IEEE 754 bit pattern of the integer [n] in a binary format with
    [m] fraction bits and [e] exponent bits, rounding to nearest, ties to
    even; magnitudes beyond the format give infinity. *)
Definition float_bits (e m : Z) (n : Z) : Z :=
  let bias := 2 ^ (e - 1) - 1 in
  let a := Z.abs n in
  let sign := if n <? 0 then 2 ^ (e + m) else 0 in
  if a =? 0 then 0
  else
    let k := Z.log2 a in
    let q :=
      if k <=? m then a * 2 ^ (m - k)
      else
        let s := k - m in
        let q0 := a / 2 ^ s in
        let r := a mod 2 ^ s in
        let half := 2 ^ (s - 1) in
        if (half <? r) || ((r =? half) && Z.odd q0) then q0 + 1 else q0 in
    let bits := (k + bias) * 2 ^ m + (q - 2 ^ m) in
    let inf := (2 ^ e - 1) * 2 ^ m in
    sign + Z.min bits inf.

(** The bytes torch stores for the Python scalar [n] in an element of type
    [d]: what [fill_(n)] writes to every element. *)
Definition encode_scalar (d : dtype) (n : Z) : list byte :=
  match d with
  | float16 => encode_le 2 (float_bits 5 10 n)
  | bfloat16 => encode_le 2 (float_bits 8 7 n)
  | float32 => encode_le 4 (float_bits 8 23 n)
  | float64 => encode_le 8 (float_bits 11 52 n)
  | uint8 | int8 => encode_le 1 n
  | int16 => encode_le 2 n
  | int32 => encode_le 4 n
  | int64 => encode_le 8 n
  | bool => encode_le 1 (if n =? 0 then 0 else 1)
  | complex64 => encode_le 4 (float_bits 8 23 n) ++ encode_le 4 0
  | complex128 => encode_le 8 (float_bits 11 52 n) ++ encode_le 8 0
  end.

End Bits.
Export Bits.

(** The patterns of a few scalars, against the tables of IEEE 754. *)
Example encode_float32_five :
  encode_scalar float32 5 = [x00; x00; xa0; x40].
Proof. reflexivity. Qed.

Example encode_int16_minus_one : encode_scalar int16 (-1) = [xff; xff].
Proof. reflexivity. Qed.

Example encode_complex64_one :
  encode_scalar complex64 1 = [x00; x00; x80; x3f; x00; x00; x00; x00].
Proof. reflexivity. Qed.

(** 2^24 + 1 is halfway between two [float32] numbers and rounds to the even
    one; 65520 is beyond the largest [float16] number. *)
Example float_bits_rounds :
  float_bits 8 23 16777217 = float_bits 8 23 16777216
  /\ float_bits 8 23 16777219 = float_bits 8 23 16777220
  /\ float_bits 5 10 65520 = 31744.
Proof. repeat split. Qed.

(** ** The world: operating system and torch storages *)

(** The exceptions the module and the primitives under it raise. *)
Inductive exn : Type :=
  | ValueError (msg : string)
  | RuntimeError (msg : string)
  | IndexError (msg : string)
  | TypeError (msg : string)
  | OSError (msg : string).

(** The result of [os.statvfs]: the two fields [_choose_dir] reads. *)
Record statvfs_result : Type := {
  f_bavail : nat;
  f_frsize : nat;
}.

Record World : Type := {
  (** [sys.platform] *)
  platform : string;
  (** [os.getpid()] *)
  pid : Z;
  (** the directory [util.get_temp_dir()] answers with *)
  temp_dir : string;
  (** the file system a directory lives on, as [os.statvfs] reports it;
      every directory asked about is taken to exist *)
  vfs : string -> statvfs_result;
  (** the storage objects by identity: file contents and heap blocks *)
  storage : gmap nat (list byte);
  (** directory entries: the name of a file and the object it names *)
  names : gmap string nat;
  (** the open descriptors of the process and the file each one refers to *)
  fds : gmap Z nat;
  (** the registry of [util.Finalize]: descriptors closed when their owner
      is collected *)
  finalizers : list Z;
}.

Definition set_storage (f : gmap nat (list byte) -> gmap nat (list byte))
    (w : World) : World :=
  {| platform := platform w; pid := pid w; temp_dir := temp_dir w;
     vfs := vfs w; storage := f (storage w); names := names w;
     fds := fds w; finalizers := finalizers w |}.

Definition set_names (f : gmap string nat -> gmap string nat)
    (w : World) : World :=
  {| platform := platform w; pid := pid w; temp_dir := temp_dir w;
     vfs := vfs w; storage := storage w; names := f (names w);
     fds := fds w; finalizers := finalizers w |}.

Definition set_fds (f : gmap Z nat -> gmap Z nat) (w : World) : World :=
  {| platform := platform w; pid := pid w; temp_dir := temp_dir w;
     vfs := vfs w; storage := storage w; names := names w;
     fds := f (fds w); finalizers := finalizers w |}.

Definition set_finalizers (f : list Z -> list Z) (w : World) : World :=
  {| platform := platform w; pid := pid w; temp_dir := temp_dir w;
     vfs := vfs w; storage := storage w; names := names w;
     fds := fds w; finalizers := f (finalizers w) |}.

(** The bytes of a storage object; an object that is gone has none. *)
Definition bytes_of (w : World) (ino : nat) : list byte :=
  default [] (storage w !! ino).

(** ** The monad of the module: state and exceptions *)

Inductive outcome (A : Type) : Type :=
  | Ok (a : A)
  | Raise (e : exn).
Arguments Ok {A} a.
Arguments Raise {A} e.

Definition M (A : Type) : Type := World -> outcome A * World.

Definition ret {A} (a : A) : M A := fun w => (Ok a, w).

Definition raise {A} (e : exn) : M A := fun w => (Raise e, w).

Definition bind {A B} (m : M A) (k : A -> M B) : M B :=
  fun w =>
    match m w with
    | (Ok a, w') => k a w'
    | (Raise e, w') => (Raise e, w')
    end.

Definition get {A} (f : World -> A) : M A := fun w => (Ok (f w), w).

Definition modify (f : World -> World) : M unit := fun w => (Ok tt, f w).

Declare Scope py_scope.
Delimit Scope py_scope with py.
Notation "x <- m ;; k" := (bind m (fun x => k))
  (at level 100, m at next level, right associativity) : py_scope.
Notation "'let*' p ':=' m 'in' k" := (bind m (fun p => k))
  (at level 10, p pattern, m at level 100, k at level 200) : py_scope.
Notation "m ;;; k" := (bind m (fun _ => k))
  (at level 100, right associativity) : py_scope.
Local Open Scope py_scope.

(** ** Operating-system primitives *)

Module OS.

(** A descriptor no open file uses: never negative, so never the sentinel
    [-1]. *)
Definition fresh_fd (t : gmap Z nat) : Z :=
  Z.of_nat (fresh (set_map Z.to_nat (dom t) : gset nat)).

(** [s] without the prefix [p], when [s] starts with [p]. *)
Fixpoint strip_prefix (p s : string) : option string :=
  match p, s with
  | EmptyString, _ => Some s
  | String a p', String b s' =>
      if decide (a = b) then strip_prefix p' s' else None
  | String _ _, EmptyString => None
  end.

(** [tempfile.mkstemp(prefix=, dir=)]: creates and opens a new empty file
    under a name of the form [dir/prefix...] that no directory entry uses;
    answers the descriptor and the name. *)
Definition mkstemp (prefix dir : string) : M (Z * string) := fun w =>
  let base := dir +:+ "/" +:+ prefix in
  let used : gset string :=
    list_to_set (omap (strip_prefix base) (elements (dom (names w)))) in
  let name := base +:+ fresh used in
  let ino := fresh (dom (storage w)) in
  let fd := fresh_fd (fds w) in
  (Ok (fd, name),
   set_fds (insert fd ino)
     (set_names (insert name ino)
        (set_storage (insert ino []) w))).

(** [os.unlink(name)]: removes the directory entry; the file lives on while
    a descriptor refers to it. *)
Definition unlink (name : string) : M unit := fun w =>
  match names w !! name with
  | Some _ => (Ok tt, set_names (delete name) w)
  | None => (Raise (OSError "No such file or directory"), w)
  end.

(** [util.Finalize(obj, os.close, (fd,))]: registers the closing of [fd]
    for the time [obj] is collected. *)
Definition Finalize_close (fd : Z) : M unit :=
  modify (set_finalizers (cons fd)).

(** The first [n] bytes of [l], padded with zero bytes when [l] is
    shorter: the content of a file after [ftruncate]. *)
Definition resize (n : nat) (l : list byte) : list byte :=
  take n l ++ replicate (n - length l) x00.

(** [os.ftruncate(fd, size)] *)
Definition ftruncate (fd : Z) (size : nat) : M unit := fun w =>
  match fds w !! fd with
  | Some ino => (Ok tt, set_storage (alter (resize size) ino) w)
  | None => (Raise (OSError "Bad file descriptor"), w)
  end.

(** [os.dup(fd)] *)
Definition dup (fd : Z) : M Z := fun w =>
  match fds w !! fd with
  | Some ino =>
      let fd' := fresh_fd (fds w) in
      (Ok fd', set_fds (insert fd' ino) w)
  | None => (Raise (OSError "Bad file descriptor"), w)
  end.

(** [os.close(fd)] *)
Definition close (fd : Z) : M unit := fun w =>
  match fds w !! fd with
  | Some _ => (Ok tt, set_fds (delete fd) w)
  | None => (Raise (OSError "Bad file descriptor"), w)
  end.

(** A memory mapping ([mmap.mmap]): the file it maps and its length. *)
Record mmap_obj : Type := {
  map_ino : nat;
  map_len : nat;
}.

(** [mmap.mmap(fd, length)] of Python on a regular file: a length of zero
    asks for the whole file and is refused on an empty file; a length
    beyond the end of the file is refused. *)
Definition mmap (fd : Z) (length : nat) : M mmap_obj := fun w =>
  match fds w !! fd with
  | None => (Raise (OSError "Bad file descriptor"), w)
  | Some ino =>
      let file_size := List.length (bytes_of w ino) in
      if (length =? 0)%nat then
        if (file_size =? 0)%nat then
          (Raise (ValueError "cannot mmap an empty file"), w)
        else (Ok {| map_ino := ino; map_len := file_size |}, w)
      else if (file_size <? length)%nat then
        (Raise (ValueError "mmap length is greater than file size"), w)
      else (Ok {| map_ino := ino; map_len := length |}, w)
  end.


End OS.

(** ** Tensors: typed, shaped views over a storage *)

Module Torch.

Import OS.

(** [torch.device]: its [type] and its optional index. *)
Record device : Type := {
  dev_type : string;
  dev_index : option nat;
}.

(** [torch.layout] *)
Inductive layout : Type :=
  | strided | sparse_coo | sparse_csr | sparse_csc | sparse_bsr | sparse_bsc.

(** A dense, contiguous tensor whose first element sits at the start of its
    storage. [storage_filename] is [tensor.untyped_storage().filename]: the
    file torch mapped the storage from, if it did. *)
Record Tensor : Type := {
  data : nat;
  dtype_of : dtype;
  shape : list nat;
  storage_filename : option string;
}.

(** [shape.numel()] *)
Definition numel (s : list nat) : nat := foldr Nat.mul 1%nat s.

(** The bytes a tensor covers in its storage. *)
Definition nbytes (t : Tensor) : nat :=
  (numel (shape t) * itemsize (dtype_of t))%nat.

(** [t.flatten()[i]], as the stored bytes of the element. *)
Definition element (w : World) (t : Tensor) (i : nat) : option (list byte) :=
  if (i <? numel (shape t))%nat then
    let isz := itemsize (dtype_of t) in
    Some (take isz (drop (i * isz) (bytes_of w (data t))))
  else None.

(** [t.flatten().tolist()], as stored bytes. *)
Definition elements_of (w : World) (t : Tensor) : list (list byte) :=
  omap (element w t) (seq 0 (numel (shape t))).

(** [new] written over [old] from byte [off] on. *)
Definition write_at (off : nat) (new old : list byte) : list byte :=
  take off old ++ new ++ drop (off + length new) old.

(** [t.flatten()[i] = v] *)
Definition setitem (t : Tensor) (i : nat) (v : Z) : M unit :=
  if (i <? numel (shape t))%nat then
    modify (set_storage
      (alter (write_at (i * itemsize (dtype_of t))
                (encode_scalar (dtype_of t) v)) (data t)))
  else raise (IndexError "index out of range").

(** [t.zero_()]: every byte of every element is cleared. *)
Definition zero_ (t : Tensor) : M Tensor :=
  modify (set_storage
    (alter (write_at 0 (replicate (nbytes t) x00)) (data t))) ;;;
  ret t.

(** [t.fill_(v)] *)
Definition fill_ (t : Tensor) (v : Z) : M Tensor :=
  modify (set_storage
    (alter (write_at 0
       (mjoin (replicate (numel (shape t)) (encode_scalar (dtype_of t) v))))
       (data t))) ;;;
  ret t.

(** [dst.copy_(src)] between tensors of one element type and one element
    count, which is how [from_tensor] calls it (a conversion between
    element types is not part of this model); the elements of [src] are
    read before [dst] is written. *)
Definition copy_ (dst src : Tensor) : M Tensor :=
  if decide (dtype_of dst = dtype_of src
             /\ numel (shape dst) = numel (shape src)) then
    content <- get (fun w => take (nbytes src) (bytes_of w (data src))) ;;
    modify (set_storage (alter (write_at 0 content) (data dst))) ;;;
    ret dst
  else raise (RuntimeError "copy_: element types or sizes differ").

(** [torch.frombuffer(memoryview(buffer), dtype=dtype)]: a one-dimensional
    tensor over the mapped bytes, none copied. *)
Definition frombuffer (buffer : mmap_obj) (dt : dtype) : M Tensor :=
  let len := map_len buffer in
  if (len =? 0)%nat then
    raise (ValueError "both buffer length (0) and count (-1) must not be 0")
  else if negb (len mod itemsize dt =? 0)%nat then
    raise (ValueError "buffer length must be a multiple of element size")
  else
    ret {| data := map_ino buffer; dtype_of := dt;
           shape := [(len / itemsize dt)%nat];
           storage_filename := None |}.

(** [torch.reshape(t, shape)] and [t.view(shape)] of a contiguous tensor:
    the same storage under another shape of the same element count. *)
Definition reshape (t : Tensor) (s : list nat) : M Tensor :=
  if decide (numel s = numel (shape t)) then
    ret {| data := data t; dtype_of := dtype_of t; shape := s;
           storage_filename := storage_filename t |}
  else raise (RuntimeError "shape is invalid for input size").

Definition view (t : Tensor) (s : list nat) : M Tensor := reshape t s.

(** An unspecified layout, or the dense one. *)
Definition is_dense (lay : option layout) : Datatypes.bool :=
  match lay with
  | None | Some strided => true
  | Some _ => false
  end.

(** An unspecified device, or the CPU. *)
Definition is_cpu (dev : option device) : Datatypes.bool :=
  match dev with
  | None => true
  | Some d => bool_decide (dev_type d = "cpu")
  end.

(** [torch.from_file(filename, shared=True, dtype=, size=, layout=, device=,
    pin_memory=)]: opens the file, creating it when it is missing; grows it
    to [size] elements when it is shorter; maps it shared. A [size] of zero
    maps the file as long as it is, which fails on an empty file. Torch
    refuses pinned memory, and every layout and device but the dense one on
    the CPU. *)
Definition from_file (filename : string) (dt : dtype) (size : nat)
    (lay : option layout) (dev : option device) (pin_memory : Datatypes.bool)
    : M Tensor :=
  if pin_memory then
    raise (RuntimeError "tensors constructed from a file cannot be pinned")
  else if negb (is_dense lay) then
    raise (RuntimeError "from_file: unsupported layout")
  else if negb (is_cpu dev) then
    raise (RuntimeError "from_file: unsupported device")
  else
    found <- get (fun w => names w !! filename) ;;
    ino <- match found with
           | Some ino => ret ino
           | None =>
               ino <- get (fun w => fresh (dom (storage w))) ;;
               modify (set_storage (insert ino [])) ;;;
               modify (set_names (insert filename ino)) ;;;
               ret ino
           end ;;
    file_size <- get (fun w => length (bytes_of w ino)) ;;
    let want := (size * itemsize dt)%nat in
    (if (0 <? want)%nat then
       if (file_size <? want)%nat then
         modify (fun w =>
           set_storage (insert ino (resize want (bytes_of w ino))) w)
       else ret tt
     else if (file_size =? 0)%nat then
       raise (RuntimeError "unable to mmap 0 bytes from file")
     else ret tt) ;;;
    ret {| data := ino; dtype_of := dt; shape := [size];
           storage_filename := Some filename |}.

End Torch.

(** ** The module [tensordict/_memory_map.py] *)

Import OS Torch.

(** *** [class _FileHandler] *)

Module _FileHandler.

(** The attributes [__init__] sets. *)
Record t : Type := {
  size : nat;
  fd : Z;
  buffer : mmap_obj;
}.

(** The class attribute [_dir_candidates], fixed by [sys.platform]. *)
Definition _dir_candidates : M (list string) :=
  p <- get platform ;;
  if decide (p = "linux") then ret ["/dev/shm"] else ret [].

(** [os.statvfs(d)] *)
Definition statvfs (d : string) : M statvfs_result :=
  get (fun w => vfs w d).

(** [util.get_temp_dir()] *)
Definition get_temp_dir : M string := get temp_dir.

(** The [for] loop of [_choose_dir] over the candidates still to visit,
    and the two statements after it. *)
Fixpoint _choose_dir_loop (ds : list string) (size : nat) : M string :=
  match ds with
  | d :: ds' =>
      st <- statvfs d ;;
      if (size <=? f_bavail st * f_frsize st)%nat then ret d
      else _choose_dir_loop ds' size
  | [] =>
      tmpdir <- get_temp_dir ;;
      ret tmpdir
  end.

Definition _choose_dir (size : nat) : M string :=
  ds <- _dir_candidates ;;
  _choose_dir_loop ds size.

(** [_FileHandler(size, fd=-1, filename=None)]; the body never reads
    [filename]. *)
Definition __init__ (size : nat) (fd : Z) : M t :=
  self_fd <-
    (if decide (fd = -1) then
       p <- get pid ;;
       dir <- _choose_dir size ;;
       let* (fd', name) := mkstemp ("pym-" +:+ pretty p +:+ "-") dir in
       unlink name ;;;
       Finalize_close fd' ;;;
       ftruncate fd' size ;;;
       ret fd'
     else ret fd) ;;
  buf <- mmap self_fd size ;;
  ret {| size := size; fd := self_fd; buffer := buf |}.

End _FileHandler.

(** *** Pickling a handler *)

(** [reduction.DupFd(fd)] duplicates the descriptor and wraps the
    duplicate; [detach()] hands the wrapped descriptor to the receiver. *)
Record DupFd_obj : Type := { dup_handle : Z }.

Definition DupFd (fd : Z) : M DupFd_obj :=
  fd' <- dup fd ;;
  ret {| dup_handle := fd' |}.

Definition detach (d : DupFd_obj) : M Z := ret (dup_handle d).

Definition unpicklable_msg : string :=
  "Handler is unpicklable because forking was enabled when it was created".

(** [_reduce_handler(handler)]: the arguments [_rebuild_handler] is to be
    called with. *)
Definition _reduce_handler (handler : _FileHandler.t) : M (nat * DupFd_obj) :=
  if decide (_FileHandler.fd handler = -1) then
    raise (ValueError unpicklable_msg)
  else
    d <- DupFd (_FileHandler.fd handler) ;;
    ret (_FileHandler.size handler, d).

Definition _rebuild_handler (size : nat) (dupfd : DupFd_obj)
    : M _FileHandler.t :=
  detached <- detach dupfd ;;
  _FileHandler.__init__ size detached.

(** *** The factory *)

Definition complex_msg : string :=
  "Complex-valued tensors are not supported by memory-mapped tensors.".

(** [empty_like(input, *, dtype, layout, device, pin_memory, filename)].
    [memory_format] is accepted and never read; [requires_grad] only marks
    the result for autograd and is left at its default. *)
Definition empty_like (input : Tensor) (dt : option dtype)
    (lay : option layout) (dev : option device)
    (pin_memory : Datatypes.bool) (filename : option string) : M Tensor :=
  let shape := Torch.shape input in
  let dt := match dt with None => dtype_of input | Some d => d end in
  match dev with
  | Some d =>
      if decide (dev_type d = "cpu") then ret tt else raise (ValueError "")
  | None => ret tt
  end ;;;
  match filename with
  | None =>
      size <-
        (if is_floating_point dt then
           match finfo_bits dt with
           | Some bits => ret (bits / 8 * numel shape)%nat
           | None => raise (TypeError "finfo requires a floating point type")
           end
         else if is_complex dt then raise (ValueError complex_msg)
         else if is_bool dt then ret (numel shape)
         else
           match iinfo_bits dt with
           | Some bits => ret (bits / 8 * numel shape)%nat
           | None => raise (TypeError "iinfo requires an integer type")
           end) ;;
      handler <- _FileHandler.__init__ size (-1) ;;
      match lay with Some _ => raise (ValueError "") | None => ret tt end ;;;
      (if pin_memory then raise (ValueError "") else ret tt) ;;;
      out <- frombuffer (_FileHandler.buffer handler) dt ;;
      out <- reshape out shape ;;
      ret out
  | Some f =>
      out <- from_file f dt (numel shape) lay dev pin_memory ;;
      out <- view out (Torch.shape input) ;;
      ret out
  end.

(** [zeros_like(...)] *)
Definition zeros_like (input : Tensor) (dt : option dtype)
    (lay : option layout) (dev : option device)
    (pin_memory : Datatypes.bool) (filename : option string) : M Tensor :=
  out <- empty_like input dt lay dev pin_memory filename ;;
  zero_ out.

(** [ones_like(...)] *)
Definition ones_like (input : Tensor) (dt : option dtype)
    (lay : option layout) (dev : option device)
    (pin_memory : Datatypes.bool) (filename : option string) : M Tensor :=
  out <- empty_like input dt lay dev pin_memory filename ;;
  fill_ out 1.

Definition conflict_msg (existing : string) : string :=
  "A filename was provided but the tensor already has a file associated ("
  +:+ existing +:+
  "). To copy the tensor onto the new location, pass copy_existing=True.".

(** [from_tensor(tensor, *, filename=None, copy_existing=False)] *)
Definition from_tensor (tensor : Tensor) (filename : option string)
    (copy_existing : Datatypes.bool) : M Tensor :=
  if bool_decide (filename <> None)
     && negb copy_existing
     && bool_decide (storage_filename tensor <> None)
  then
    raise (RuntimeError
             (conflict_msg (default "" (storage_filename tensor))))
  else
    out <- empty_like tensor None None None false filename ;;
    copy_ out tensor.

(** * Properties *)

(** ** The monad *)

Lemma bind_ok {A B} (m : M A) (k : A -> M B) w a w' :
  m w = (Ok a, w') -> bind m k w = k a w'.
Proof. intros H. unfold bind. now rewrite H. Qed.

Lemma bind_raise {A B} (m : M A) (k : A -> M B) w e w' :
  m w = (Raise e, w') -> bind m k w = (Raise e, w').
Proof. intros H. unfold bind. now rewrite H. Qed.


(** ** Bytes *)

Section bytes.

Lemma length_encode_le w v : length (encode_le w v) = w.
Proof.
  revert v. induction w as [|w IH]; intros v; simpl; [|rewrite IH]; done.
Qed.

(** An element of type [d] takes [itemsize d] bytes. *)
Lemma length_encode_scalar d v : length (encode_scalar d v) = itemsize d.
Proof.
  destruct d; simpl; rewrite ?length_app, ?length_encode_le; reflexivity.
Qed.

(** The zero of every element type is the all-zero bit pattern. *)
Lemma encode_scalar_0 d : encode_scalar d 0 = replicate (itemsize d) x00.
Proof. destruct d; reflexivity. Qed.

Lemma resize_nil n : resize n [] = replicate n x00.
Proof. unfold resize. destruct n; simpl; [done|]. reflexivity. Qed.

Lemma length_resize n l : length (resize n l) = n.
Proof.
  unfold resize. rewrite length_app, length_take, length_replicate. lia.
Qed.

Lemma write_at_0_length new old :
  length (write_at 0 new old) = Nat.max (length new) (length old).
Proof. unfold write_at. simpl. rewrite length_app, length_drop. lia. Qed.

Lemma take_write_at_0 new old :
  take (length new) (write_at 0 new old) = new.
Proof. unfold write_at. simpl. now rewrite take_app_length. Qed.

(** The chunk [i] of [n] chunks [c] laid end to end. *)
Lemma chunk_of_replicate (c : list byte) n i rest :
  (i < n)%nat ->
  take (length c) (drop (i * length c) (mjoin (replicate n c) ++ rest)) = c.
Proof.
  revert i. induction n as [|n IH]; intros i Hi; [lia|].
  simpl. destruct i as [|i].
  - simpl. rewrite <- app_assoc. apply take_app_length.
  - simpl. rewrite <- app_assoc.
    rewrite drop_app_add'; [|done]. apply IH. lia.
Qed.

Lemma chunk_of_zeros k n i rest :
  (i < n)%nat ->
  take k (drop (i * k) (replicate (n * k) x00 ++ rest)) = replicate k x00.
Proof.
  intros Hi.
  assert (Hj : replicate (n * k) x00 = mjoin (replicate n (replicate k x00))).
  { clear. induction n as [|n IH]; simpl; [done|].
    now rewrite replicate_add, IH. }
  rewrite Hj.
  pose proof (chunk_of_replicate (replicate k x00) n i rest Hi) as H.
  now rewrite length_replicate in H.
Qed.

End bytes.

(** ** Operating-system primitives *)

Section os_facts.

Import OS.

Lemma fresh_fd_nonneg (t : gmap Z nat) : 0 <= fresh_fd t.
Proof. unfold fresh_fd. lia. Qed.

Lemma fresh_fd_not_sentinel (t : gmap Z nat) : fresh_fd t <> -1.
Proof. pose proof (fresh_fd_nonneg t). lia. Qed.

Lemma fresh_fd_fresh (t : gmap Z nat) : t !! fresh_fd t = None.
Proof.
  apply not_elem_of_dom. intros Hin.
  pose proof (is_fresh (set_map Z.to_nat (dom t) : gset nat)) as Hf.
  apply Hf. apply elem_of_map. exists (fresh_fd t). split; [|done].
  unfold fresh_fd. now rewrite Nat2Z.id.
Qed.

Lemma new_ino_fresh (w : World) : storage w !! fresh (dom (storage w)) = None.
Proof. apply not_elem_of_dom, is_fresh. Qed.

Lemma strip_prefix_app p s : strip_prefix p (p +:+ s) = Some s.
Proof.
  induction p as [|a p IH]; simpl; [done|].
  destruct (decide (a = a)); [exact IH|done].
Qed.

(** The name [mkstemp] picks is not in use. *)
Lemma mkstemp_name_fresh (m : gmap string nat) base :
  let used : gset string :=
    list_to_set (omap (strip_prefix base) (elements (dom m))) in
  m !! (base +:+ fresh used) = None.
Proof.
  intros used. apply not_elem_of_dom. intros Hin.
  apply (is_fresh used). unfold used at 2.
  apply elem_of_list_to_set, list_elem_of_omap.
  exists (base +:+ fresh used). split.
  - now apply elem_of_elements.
  - apply strip_prefix_app.
Qed.

End os_facts.

(** ** The anonymous file region *)

Section region.

Import OS.

Definition free_space (w : World) (d : string) : nat :=
  (f_bavail (vfs w d) * f_frsize (vfs w d))%nat.

(** The world after a temporary file of [size] zero bytes was created,
    unlinked and registered for closing. *)
Definition region_world (w : World) (size : nat) : World :=
  set_finalizers (cons (fresh_fd (fds w)))
    (set_fds (insert (fresh_fd (fds w)) (fresh (dom (storage w))))
       (set_storage
          (insert (fresh (dom (storage w))) (replicate size x00)) w)).

Lemma _choose_dir_loop_pure ds size w :
  exists d, _FileHandler._choose_dir_loop ds size w = (Ok d, w).
Proof.
  induction ds as [|d ds IH]; simpl.
  - now exists (temp_dir w).
  - unfold bind, _FileHandler.statvfs, get. simpl.
    destruct (size <=? _)%nat; [now exists d|exact IH].
Qed.

Lemma _choose_dir_pure size w :
  exists d, _FileHandler._choose_dir size w = (Ok d, w).
Proof.
  unfold _FileHandler._choose_dir, _FileHandler._dir_candidates, bind, get.
  simpl. destruct (decide (platform w = "linux")); apply _choose_dir_loop_pure.
Qed.

Lemma world_eq (w1 w2 : World) :
  platform w1 = platform w2 -> pid w1 = pid w2 ->
  temp_dir w1 = temp_dir w2 -> vfs w1 = vfs w2 ->
  storage w1 = storage w2 -> names w1 = names w2 ->
  fds w1 = fds w2 -> finalizers w1 = finalizers w2 ->
  w1 = w2.
Proof. destruct w1, w2; simpl; intros; subst; reflexivity. Qed.

(** What [_FileHandler(size)] does: the region is created in any case, and
    only a region of at least one byte can be mapped. *)
Lemma init_new w size :
  _FileHandler.__init__ size (-1) w =
  (if (size =? 0)%nat then Raise (ValueError "cannot mmap an empty file")
   else Ok {| _FileHandler.size := size;
              _FileHandler.fd := fresh_fd (fds w);
              _FileHandler.buffer :=
                {| map_ino := fresh (dom (storage w)); map_len := size |} |},
   region_world w size).
Proof.
  unfold _FileHandler.__init__.
  destruct (decide (-1 = -1)) as [_|]; [|done].
  destruct (_choose_dir_pure size w) as [d Hd].
  unfold bind at 1. unfold bind at 1. unfold get at 1. unfold bind at 1.
  rewrite Hd.
  unfold bind, get, mkstemp, unlink, Finalize_close, modify, ftruncate, ret.
  simpl. rewrite lookup_insert_eq. simpl. rewrite lookup_insert_eq. simpl.
  unfold mmap. simpl. rewrite lookup_insert_eq.
  unfold bytes_of. simpl. rewrite alter_insert_eq, lookup_insert_eq. simpl.
  rewrite resize_nil, length_replicate.
  rewrite Nat.ltb_irrefl.
  match goal with
  | |- context [(Raise _, ?w1)] =>
      replace w1 with (region_world w size);
      [now destruct (size =? 0)%nat|]
  end.
  apply world_eq; simpl; try reflexivity.
  - now rewrite alter_insert_eq, resize_nil.
  - now rewrite delete_insert_eq, delete_id by apply mkstemp_name_fresh.
Qed.

(** [_FileHandler(size, fd)] over a descriptor of the caller. *)
Lemma init_given w size fd :
  fd <> -1 ->
  _FileHandler.__init__ size fd w =
  match mmap fd size w with
  | (Ok buf, w') =>
      (Ok {| _FileHandler.size := size; _FileHandler.fd := fd;
             _FileHandler.buffer := buf |}, w')
  | (Raise e, w') => (Raise e, w')
  end.
Proof.
  intros Hfd. unfold _FileHandler.__init__.
  destruct (decide (fd = -1)); [done|].
  unfold bind, ret. simpl. destruct (mmap fd size w) as [[buf|e] w']; done.
Qed.

Lemma mmap_pure fd size w r w' : mmap fd size w = (r, w') -> w' = w.
Proof.
  unfold mmap. destruct (fds w !! fd); [|now intros [= _ <-]].
  repeat case_match; now intros [= _ <-].
Qed.

End region.

(** ** Directory selection *)

Section choose_dir.

(** The loop returns the first directory with room for [size] bytes, and
    the temporary directory when it runs out of candidates. *)
Lemma _choose_dir_loop_first_fit ds size w :
  exists d,
    _FileHandler._choose_dir_loop ds size w = (Ok d, w) /\
    ((exists pre post,
         ds = (pre ++ d :: post)%list /\
         (size <= free_space w d)%nat /\
         Forall (fun d' => (free_space w d' < size)%nat) pre)
     \/ (Forall (fun d' => (free_space w d' < size)%nat) ds
         /\ d = temp_dir w)).
Proof.
  induction ds as [|d0 ds IH]; simpl.
  - exists (temp_dir w). split; [done|]. right. split; [constructor|done].
  - unfold bind, _FileHandler.statvfs, get. simpl.
    destruct (size <=? f_bavail (vfs w d0) * f_frsize (vfs w d0))%nat eqn:E.
    + apply Nat.leb_le in E. exists d0. split; [done|]. left.
      exists [], ds. repeat split; [exact E|constructor].
    + apply Nat.leb_gt in E. destruct IH as (d & Hrun & Hd).
      exists d. split; [exact Hrun|].
      destruct Hd as [(pre & post & -> & Hfit & Hpre)|[Hall ->]].
      * left. exists (d0 :: pre), post. repeat split; [exact Hfit|].
        constructor; [exact E|exact Hpre].
      * right. split; [|done]. constructor; [exact E|exact Hall].
Qed.

(** C7. [_choose_dir] walks the ordered candidates of the platform
    ([/dev/shm] on Linux, none elsewhere) and answers the first one whose
    free space, available blocks times fragment size, is at least the
    requested size; when no candidate qualifies it answers the temporary
    directory of the host. The world is left as it was. *)
Theorem choose_dir_first_fit (w : World) (size : nat) :
  let cands := if decide (platform w = "linux") then ["/dev/shm"] else [] in
  _FileHandler._dir_candidates w = (Ok cands, w) /\
  exists d,
    _FileHandler._choose_dir size w = (Ok d, w) /\
    ((exists pre post,
         cands = (pre ++ d :: post)%list /\
         (size <= f_bavail (vfs w d) * f_frsize (vfs w d))%nat /\
         Forall (fun d' =>
                   (f_bavail (vfs w d') * f_frsize (vfs w d') < size)%nat) pre)
     \/ (Forall (fun d' =>
                   (f_bavail (vfs w d') * f_frsize (vfs w d') < size)%nat)
                cands
         /\ d = temp_dir w)).
Proof.
  intros cands. split.
  - unfold _FileHandler._dir_candidates, bind, get, ret, cands. simpl.
    now destruct (decide (platform w = "linux")).
  - destruct (_choose_dir_loop_first_fit cands size w) as (d & Hrun & Hd).
    exists d. split; [|exact Hd].
    unfold _FileHandler._choose_dir, _FileHandler._dir_candidates,
      bind, get, ret. simpl.
    unfold cands in Hrun. now destruct (decide (platform w = "linux")).
Qed.

End choose_dir.

(** ** Sample worlds *)

Module Sample.

(** A Linux host with 1024 free bytes on every file system and nothing
    open. *)
Definition host : World :=
  {| platform := "linux"; pid := 4242; temp_dir := "/tmp/pymp-x";
     vfs := fun _ => {| f_bavail := 64; f_frsize := 16 |};
     storage := ∅; names := ∅; fds := ∅; finalizers := [] |}.

(** The host with the 16-byte file [/tmp/x.bin], open on descriptor 5. *)
Definition host_with_file : World :=
  {| platform := "linux"; pid := 4242; temp_dir := "/tmp/pymp-x";
     vfs := fun _ => {| f_bavail := 64; f_frsize := 16 |};
     storage := {[ 0%nat := replicate 16 x07 ]};
     names := {[ "/tmp/x.bin" := 0%nat ]};
     fds := {[ 5 := 0%nat ]};
     finalizers := [] |}.

(** Four [float32] elements mapped from [/tmp/x.bin]. *)
Definition file_tensor : Torch.Tensor :=
  {| Torch.data := 0; Torch.dtype_of := float32; Torch.shape := [4%nat];
     Torch.storage_filename := Some "/tmp/x.bin" |}.

(** Four [float32] elements over the same bytes, held as a heap tensor. *)
Definition heap_tensor : Torch.Tensor :=
  {| Torch.data := 0; Torch.dtype_of := float32; Torch.shape := [4%nat];
     Torch.storage_filename := None |}.

(** A [float32] tensor without elements. *)
Definition empty_tensor : Torch.Tensor :=
  {| Torch.data := 0; Torch.dtype_of := float32; Torch.shape := [0%nat];
     Torch.storage_filename := None |}.

End Sample.

(** ** Handlers and their pickling *)

Section handlers.

Import OS.

(** What [__init__] establishes: the descriptor of the handler is open on
    the file its buffer maps, and the buffer is what mapping [size] bytes
    of that descriptor gives. *)
Definition region_ok (w : World) (h : _FileHandler.t) : Prop :=
  mmap (_FileHandler.fd h) (_FileHandler.size h) w
  = (Ok (_FileHandler.buffer h), w).

Lemma mmap_ok_inv fd size w buf w' :
  mmap fd size w = (Ok buf, w') ->
  w' = w /\
  fds w !! fd = Some (map_ino buf) /\
  (map_len buf <= length (bytes_of w (map_ino buf)))%nat /\
  (0 < map_len buf)%nat /\
  ((0 < size)%nat -> map_len buf = size) /\
  (size = 0%nat -> map_len buf = length (bytes_of w (map_ino buf))).
Proof.
  unfold mmap. destruct (fds w !! fd) as [ino|] eqn:Hfd; [|done].
  destruct (size =? 0)%nat eqn:E0.
  - apply Nat.eqb_eq in E0. subst size.
    destruct (length (bytes_of w ino) =? 0)%nat eqn:E1; [done|].
    apply Nat.eqb_neq in E1. intros [= <- <-]. simpl.
    repeat split; auto; lia.
  - apply Nat.eqb_neq in E0.
    destruct (length (bytes_of w ino) <? size)%nat eqn:E1; [done|].
    apply Nat.ltb_ge in E1. intros [= <- <-]. simpl.
    repeat split; auto; lia.
Qed.

(** Every handler the constructor returns satisfies [region_ok]. *)
Lemma init_region_ok w size fd h w' :
  _FileHandler.__init__ size fd w = (Ok h, w') -> region_ok w' h.
Proof.
  destruct (decide (fd = -1)) as [->|Hfd].
  - rewrite init_new. destruct (size =? 0)%nat eqn:E; [done|].
    intros [= <- <-]. unfold region_ok, mmap, region_world, bytes_of. simpl.
    rewrite !lookup_insert_eq. simpl. rewrite length_replicate, E.
    now rewrite Nat.ltb_irrefl.
  - rewrite init_given by done.
    destruct (mmap fd size w) as [[buf|e] w1] eqn:Hm; [|done].
    intros [= <- <-]. unfold region_ok. simpl.
    pose proof (mmap_pure _ _ _ _ _ Hm) as ->. exact Hm.
Qed.

(** C10, on a descriptor of the caller and a size of zero: Python maps the
    whole file, here 16 bytes for a handler of size 0. *)
Lemma init_size_zero_maps_whole_file :
  _FileHandler.__init__ 0 5 Sample.host_with_file
  = (Ok {| _FileHandler.size := 0; _FileHandler.fd := 5;
           _FileHandler.buffer := {| map_ino := 0; map_len := 16 |} |},
     Sample.host_with_file)
  /\ map_len {| map_ino := 0; map_len := 16 |} <> 0%nat.
Proof. split; [vm_compute; reflexivity|simpl; lia]. Qed.

(** C10, as the code has it. A handler [__init__] returns holds a
    descriptor other than [-1]: a descriptor that was not open before when
    it was called with [fd = -1], the descriptor of the caller otherwise.
    That descriptor is open on the file the buffer maps, and the buffer
    has exactly [size] bytes whenever [size] is positive. [_reduce_handler]
    never raises its [ValueError] for such a handler. *)
Theorem init_descriptor_and_mapping w size fd h w' :
  _FileHandler.__init__ size fd w = (Ok h, w') ->
  _FileHandler.fd h <> -1 /\
  (fd = -1 ->
     _FileHandler.fd h = fresh_fd (fds w)
     /\ fds w !! _FileHandler.fd h = None) /\
  (fd <> -1 -> _FileHandler.fd h = fd) /\
  _FileHandler.size h = size /\
  fds w' !! _FileHandler.fd h = Some (map_ino (_FileHandler.buffer h)) /\
  ((0 < size)%nat -> map_len (_FileHandler.buffer h) = size) /\
  (map_len (_FileHandler.buffer h)
   <= length (bytes_of w' (map_ino (_FileHandler.buffer h))))%nat /\
  (forall w2 w3,
      _reduce_handler h w2 <> (Raise (ValueError unpicklable_msg), w3)).
Proof.
  intros Hinit.
  pose proof (init_region_ok _ _ _ _ _ Hinit) as Hok.
  assert (Hfd : _FileHandler.fd h <> -1
          /\ (fd = -1 -> _FileHandler.fd h = fresh_fd (fds w)
                         /\ fds w !! _FileHandler.fd h = None)
          /\ (fd <> -1 -> _FileHandler.fd h = fd)
          /\ _FileHandler.size h = size).
  { destruct (decide (fd = -1)) as [->|Hne].
    - rewrite init_new in Hinit.
      destruct (size =? 0)%nat; [done|]. injection Hinit as <- <-. simpl.
      repeat split; auto using fresh_fd_not_sentinel, fresh_fd_fresh.
      intros Habs. now contradict Habs.
    - rewrite init_given in Hinit by done.
      destruct (mmap fd size w) as [[buf|e] w1]; [|done].
      injection Hinit as <- <-. simpl. repeat split; auto; contradiction. }
  destruct Hfd as (Hne & Hnew & Hgiven & Hsize).
  apply mmap_ok_inv in Hok as (_ & Hopen & Hlen & _ & Hpos & _).
  rewrite <- Hsize.
  do 7 (split; [first [assumption | reflexivity]|]).
  intros w2 w3. unfold _reduce_handler.
    destruct (decide (_FileHandler.fd h = -1)); [done|].
    unfold DupFd, dup, bind, ret.
    destruct (fds w2 !! _FileHandler.fd h); simpl; intros Heq;
      discriminate Heq.
Qed.

Lemma init_descriptor_and_mapping_witness :
  _FileHandler.fd
    {| _FileHandler.size := 8; _FileHandler.fd := 0;
       _FileHandler.buffer := {| map_ino := 0; map_len := 8 |} |} <> -1.
Proof.
  refine (proj1 (init_descriptor_and_mapping Sample.host 8 (-1) _
                   (region_world Sample.host 8) _)).
  vm_compute. reflexivity.
Defined.

End handlers.

Section pickling.

Import OS.

(** Two descriptors of one file give the same mapping. *)
Lemma mmap_same_file fd1 fd2 size w1 w2 ino :
  fds w1 !! fd1 = Some ino -> fds w2 !! fd2 = Some ino ->
  storage w1 = storage w2 ->
  (mmap fd1 size w1).1 = (mmap fd2 size w2).1.
Proof.
  intros H1 H2 Hs. unfold mmap, bytes_of. rewrite H1, H2, Hs.
  repeat case_match; reflexivity.
Qed.

(** C8. [_reduce_handler] raises its [ValueError] for every handler whose
    descriptor is [-1]. For a handler whose descriptor is open it answers
    the size and a duplicate of the descriptor, open on the same file; from
    this pair [_rebuild_handler] builds a handler of the same size whose
    buffer is the same mapping of the same file. *)
Theorem reduce_handler_spec (h : _FileHandler.t) (w : World) :
  (_FileHandler.fd h = -1 ->
   _reduce_handler h w = (Raise (ValueError unpicklable_msg), w)) /\
  (_FileHandler.fd h <> -1 ->
   forall ino, fds w !! _FileHandler.fd h = Some ino ->
   exists d w',
     _reduce_handler h w = (Ok (_FileHandler.size h, d), w') /\
     fds w' !! dup_handle d = Some ino /\
     dup_handle d <> _FileHandler.fd h /\
     fds w' !! _FileHandler.fd h = Some ino /\
     storage w' = storage w /\
     (region_ok w h ->
      exists h',
        _rebuild_handler (_FileHandler.size h) d w' = (Ok h', w') /\
        _FileHandler.size h' = _FileHandler.size h /\
        _FileHandler.buffer h' = _FileHandler.buffer h /\
        _FileHandler.fd h' = dup_handle d /\
        _FileHandler.fd h' <> -1)).
Proof.
  split.
  - intros Hfd. unfold _reduce_handler.
    destruct (decide (_FileHandler.fd h = -1)); done.
  - intros Hfd ino Hopen.
    assert (Hne : fresh_fd (fds w) <> _FileHandler.fd h).
    { intros Heq. pose proof (fresh_fd_fresh (fds w)) as Hf.
      rewrite Heq in Hf. congruence. }
    exists {| dup_handle := fresh_fd (fds w) |},
           (set_fds (insert (fresh_fd (fds w)) ino) w).
    split; [|split; [|split; [|split; [|split]]]].
    + unfold _reduce_handler.
      destruct (decide (_FileHandler.fd h = -1)); [done|].
      unfold DupFd, dup, bind, ret. now rewrite Hopen.
    + simpl. apply lookup_insert_eq.
    + simpl. exact Hne.
    + simpl. now rewrite lookup_insert_ne.
    + reflexivity.
    + intros Hok. unfold region_ok in Hok.
      set (w' := set_fds (insert (fresh_fd (fds w)) ino) w).
      assert (Hm : mmap (fresh_fd (fds w)) (_FileHandler.size h) w'
                   = (Ok (_FileHandler.buffer h), w')).
      { pose proof (mmap_same_file (fresh_fd (fds w)) (_FileHandler.fd h)
                      (_FileHandler.size h) w' w ino) as Hsame.
        rewrite Hok in Hsame. simpl in Hsame.
        destruct (mmap (fresh_fd (fds w)) (_FileHandler.size h) w')
          as [r w1] eqn:Hr.
        pose proof (mmap_pure _ _ _ _ _ Hr) as ->.
        simpl in Hsame. rewrite Hsame; [done| |done|done].
        apply lookup_insert_eq. }
      exists {| _FileHandler.size := _FileHandler.size h;
                _FileHandler.fd := fresh_fd (fds w);
                _FileHandler.buffer := _FileHandler.buffer h |}.
      split; [|simpl; repeat split; apply fresh_fd_not_sentinel].
      unfold _rebuild_handler, detach, bind at 1, ret at 1. simpl.
      rewrite init_given by apply fresh_fd_not_sentinel.
      fold w'. now rewrite Hm.
Qed.

Lemma reduce_handler_spec_witness :
  exists d w' h',
    _reduce_handler
      {| _FileHandler.size := 16; _FileHandler.fd := 5;
         _FileHandler.buffer := {| map_ino := 0; map_len := 16 |} |}
      Sample.host_with_file
    = (Ok (16%nat, d), w')
    /\ fds w' !! dup_handle d = Some 0%nat
    /\ _rebuild_handler 16 d w' = (Ok h', w')
    /\ _FileHandler.buffer h' = {| map_ino := 0; map_len := 16 |}.
Proof.
  destruct (proj2 (reduce_handler_spec
              {| _FileHandler.size := 16; _FileHandler.fd := 5;
                 _FileHandler.buffer := {| map_ino := 0; map_len := 16 |} |}
              Sample.host_with_file)
              ltac:(simpl; lia) 0%nat ltac:(vm_compute; reflexivity))
    as (d & w' & Hred & Hdup & _ & _ & _ & Hreb).
  destruct (Hreb ltac:(vm_compute; reflexivity))
    as (h' & Hrun & _ & Hbuf & _).
  exists d, w', h'. repeat split; assumption.
Defined.

End pickling.

(** ** Named files *)

Section named_files.

Import OS Torch.

(** The object [from_file] maps for [f]: the one [f] names, or a new one. *)
Definition file_ino (w : World) (f : string) : nat :=
  match names w !! f with
  | Some ino => ino
  | None => fresh (dom (storage w))
  end.

(** The world after [f] was opened, created when missing. *)
Definition opened_world (w : World) (f : string) : World :=
  match names w !! f with
  | Some _ => w
  | None =>
      set_names (insert f (fresh (dom (storage w))))
        (set_storage (insert (fresh (dom (storage w))) []) w)
  end.

(** The world after [f] was opened and grown to [want] bytes. *)
Definition file_world (w : World) (f : string) (want : nat) : World :=
  let w1 := opened_world w f in
  if (length (bytes_of w1 (file_ino w f)) <? want)%nat then
    set_storage
      (insert (file_ino w f) (resize want (bytes_of w1 (file_ino w f)))) w1
  else w1.

Lemma from_file_eq f d n lay dev w :
  is_dense lay = true -> is_cpu dev = true ->
  from_file f d n lay dev false w =
  (if (0 <? n * itemsize d)%nat then
     (Ok {| data := file_ino w f; dtype_of := d; shape := [n];
            storage_filename := Some f |},
      file_world w f (n * itemsize d))
   else if (length (bytes_of (opened_world w f) (file_ino w f)) =? 0)%nat then
     (Raise (RuntimeError "unable to mmap 0 bytes from file"),
      opened_world w f)
   else
     (Ok {| data := file_ino w f; dtype_of := d; shape := [n];
            storage_filename := Some f |},
      opened_world w f)).
Proof.
  intros Hlay Hdev. unfold from_file. rewrite Hlay, Hdev. simpl.
  unfold file_world, opened_world, file_ino, bind, get, modify, ret, raise.
  simpl.
  destruct (names w !! f) as [ino|] eqn:Hf; simpl;
    destruct (0 <? n * itemsize d)%nat; simpl;
    repeat (case_match; simpl); simplify_eq; try reflexivity.
Qed.

Lemma file_world_names w f want :
  names (file_world w f want) !! f = Some (file_ino w f).
Proof.
  unfold file_world, opened_world, file_ino.
  destruct (names w !! f) as [ino|] eqn:Hf; case_match; simpl;
    rewrite ?lookup_insert_eq; done.
Qed.

Lemma file_world_length w f want :
  (want <= length (bytes_of (file_world w f want) (file_ino w f)))%nat.
Proof.
  unfold file_world.
  destruct (_ <? want)%nat eqn:E.
  - unfold bytes_of at 1. simpl. rewrite lookup_insert_eq. simpl.
    now rewrite length_resize.
  - now apply Nat.ltb_ge in E.
Qed.

Lemma file_world_other w f want j :
  j <> file_ino w f ->
  storage (file_world w f want) !! j = storage w !! j.
Proof.
  intros Hj. unfold file_world, opened_world, file_ino in *.
  destruct (names w !! f) as [ino|] eqn:Hf; case_match; simpl;
    rewrite ?lookup_insert_ne by done; done.
Qed.

(** A file that is long enough already is mapped as it is. *)
Lemma file_world_id w f want ino :
  names w !! f = Some ino ->
  (want <= length (bytes_of w ino))%nat ->
  file_world w f want = w.
Proof.
  intros Hf Hlen. unfold file_world, opened_world, file_ino. rewrite Hf.
  destruct (_ <? want)%nat eqn:E; [|done].
  apply Nat.ltb_lt in E. lia.
Qed.

Lemma file_world_is_Some w f want :
  (0 < want)%nat -> is_Some (storage (file_world w f want) !! file_ino w f).
Proof.
  intros Hpos. pose proof (file_world_length w f want) as Hlen.
  unfold bytes_of in Hlen.
  destruct (storage (file_world w f want) !! file_ino w f); [done|].
  simpl in Hlen. lia.
Qed.

Lemma file_ino_new w f :
  names w !! f = None -> storage w !! file_ino w f = None.
Proof. intros Hf. unfold file_ino. rewrite Hf. apply new_ino_fresh. Qed.

End named_files.

(** ** The factory *)

Section factory.

Import OS Torch.

(** The element type [empty_like] settles on. *)
Definition resolved (input : Tensor) (dt : option dtype) : dtype :=
  match dt with None => dtype_of input | Some d => d end.

Lemma itemsize_pos d : (0 < itemsize d)%nat.
Proof. destruct d; simpl; lia. Qed.

(** The device check of [empty_like]. *)
Lemma device_check_ok (dev : option device) w :
  is_cpu dev = true ->
  match dev with
  | Some d =>
      if decide (dev_type d = "cpu") then ret tt else raise (ValueError "")
  | None => ret tt
  end w = (Ok tt, w).
Proof.
  destruct dev as [d|]; simpl; [|done].
  intros H. apply bool_decide_eq_true in H.
  now destruct (decide (dev_type d = "cpu")).
Qed.

Lemma device_check_fail (dev : option device) w :
  is_cpu dev = false ->
  match dev with
  | Some d =>
      if decide (dev_type d = "cpu") then ret tt else raise (ValueError "")
  | None => ret tt
  end w = (Raise (ValueError ""), w).
Proof.
  destruct dev as [d|]; simpl; [|done].
  intros H. apply bool_decide_eq_false in H.
  now destruct (decide (dev_type d = "cpu")).
Qed.

(** The byte count [empty_like] asks the region for. *)
Lemma size_stage d n w :
  supported d = true ->
  (if is_floating_point d then
     match finfo_bits d with
     | Some bits => ret (bits / 8 * n)%nat
     | None => raise (TypeError "finfo requires a floating point type")
     end
   else if is_complex d then raise (ValueError complex_msg)
   else if is_bool d then ret n
   else
     match iinfo_bits d with
     | Some bits => ret (bits / 8 * n)%nat
     | None => raise (TypeError "iinfo requires an integer type")
     end) w = (Ok (n * itemsize d)%nat, w).
Proof.
  destruct d; try discriminate; intros _; cbn; unfold ret;
    do 2 f_equal; lia.
Qed.

Lemma size_stage_complex d n w :
  is_complex d = true ->
  (if is_floating_point d then
     match finfo_bits d with
     | Some bits => ret (bits / 8 * n)%nat
     | None => raise (TypeError "finfo requires a floating point type")
     end
   else if is_complex d then raise (ValueError complex_msg)
   else if is_bool d then ret n
   else
     match iinfo_bits d with
     | Some bits => ret (bits / 8 * n)%nat
     | None => raise (TypeError "iinfo requires an integer type")
     end) w = (Raise (ValueError complex_msg), w) :> outcome nat * World.
Proof. destruct d; try discriminate; reflexivity. Qed.

(** [empty_like] without a file name, for a supported element type on the
    CPU: the region is created first, then mapped, and only then are
    [layout] and [pin_memory] looked at. *)
Lemma empty_like_anon input dt lay dev pin w :
  is_cpu dev = true ->
  supported (resolved input dt) = true ->
  empty_like input dt lay dev pin None w =
  (if (numel (shape input) * itemsize (resolved input dt) =? 0)%nat then
     Raise (ValueError "cannot mmap an empty file")
   else if lay is Some _ then Raise (ValueError "")
   else if pin then Raise (ValueError "")
   else Ok {| data := fresh (dom (storage w));
              dtype_of := resolved input dt;
              shape := shape input;
              storage_filename := None |},
   region_world w (numel (shape input) * itemsize (resolved input dt))).
Proof.
  intros Hdev Hsup. unfold empty_like. fold (resolved input dt).
  set (d := resolved input dt) in *.
  set (size := (numel (shape input) * itemsize d)%nat).
  rewrite (bind_ok _ _ _ _ _ (device_check_ok dev w Hdev)).
  rewrite (bind_ok _ _ _ _ _ (size_stage d (numel (shape input)) w Hsup)).
  fold size. unfold bind at 1. rewrite init_new.
  destruct (size =? 0)%nat eqn:E0; [done|].
  apply Nat.eqb_neq in E0.
  destruct lay as [l|]; [reflexivity|].
  destruct pin; [reflexivity|].
  unfold bind, ret, frombuffer, reshape. simpl.
  rewrite (proj2 (Nat.eqb_neq size 0) E0).
  assert (Hmod : (size mod itemsize d =? 0)%nat = true).
  { apply Nat.eqb_eq. unfold size. apply Nat.Div0.mod_mul. }
  rewrite Hmod. simpl.
  assert (Hdiv : (size / itemsize d)%nat = numel (shape input)).
  { unfold size. apply Nat.div_mul. pose proof (itemsize_pos d). lia. }
  rewrite Hdiv, Nat.mul_1_r.
  destruct (decide (numel (shape input) = numel (shape input))); done.
Qed.

(** The device is checked before anything else. *)
Lemma empty_like_device input dt lay dev pin filename w :
  is_cpu dev = false ->
  empty_like input dt lay dev pin filename w = (Raise (ValueError ""), w).
Proof.
  intros Hdev. unfold empty_like.
  now rewrite (bind_raise _ _ _ _ _ (device_check_fail dev w Hdev)).
Qed.

(** A complex element type is refused before the region is created. *)
Lemma empty_like_complex input dt lay dev pin w :
  is_cpu dev = true ->
  is_complex (resolved input dt) = true ->
  empty_like input dt lay dev pin None w
  = (Raise (ValueError complex_msg), w).
Proof.
  intros Hdev Hc. unfold empty_like. fold (resolved input dt).
  rewrite (bind_ok _ _ _ _ _ (device_check_ok dev w Hdev)).
  now rewrite (bind_raise _ _ _ _ _
                 (size_stage_complex _ (numel (shape input)) w Hc)).
Qed.

(** [empty_like] with a file name hands every element type to
    [torch.from_file]. *)
Lemma empty_like_named input dt lay dev f w :
  is_cpu dev = true -> is_dense lay = true ->
  (0 < numel (shape input))%nat ->
  empty_like input dt lay dev false (Some f) w =
  (Ok {| data := file_ino w f; dtype_of := resolved input dt;
         shape := shape input; storage_filename := Some f |},
   file_world w f (numel (shape input) * itemsize (resolved input dt))).
Proof.
  intros Hdev Hlay Hpos. unfold empty_like. fold (resolved input dt).
  rewrite (bind_ok _ _ _ _ _ (device_check_ok dev w Hdev)).
  unfold bind at 1. rewrite from_file_eq by done.
  assert (H0 : (0 <? numel (shape input) * itemsize (resolved input dt))%nat
               = true).
  { apply Nat.ltb_lt. pose proof (itemsize_pos (resolved input dt)). nia. }
  rewrite H0. unfold bind, view, reshape, ret. simpl.
  rewrite Nat.mul_1_r.
  destruct (decide (numel (shape input) = numel (shape input))); done.
Qed.

End factory.

(** ** Reading and writing elements *)

Section elements.

Import OS Torch.

Lemma bytes_of_alter_eq w f ino :
  is_Some (storage w !! ino) ->
  bytes_of (set_storage (alter f ino) w) ino = f (bytes_of w ino).
Proof.
  intros [l Hl]. unfold bytes_of. simpl.
  now rewrite lookup_alter_eq, Hl.
Qed.

Lemma bytes_of_alter_ne w f i j :
  i <> j -> bytes_of (set_storage (alter f i) w) j = bytes_of w j.
Proof. intros Hij. unfold bytes_of. simpl. now rewrite lookup_alter_ne. Qed.

(** An element is read from the first [nbytes] bytes of the storage. *)
Lemma element_prefix w1 w2 t1 t2 i :
  dtype_of t1 = dtype_of t2 -> numel (shape t1) = numel (shape t2) ->
  take (nbytes t1) (bytes_of w1 (data t1))
  = take (nbytes t2) (bytes_of w2 (data t2)) ->
  element w1 t1 i = element w2 t2 i.
Proof.
  intros Hd Hn Hpre. unfold element. rewrite <- Hd, <- Hn.
  destruct (i <? numel (shape t1))%nat eqn:Hi; [|done].
  apply Nat.ltb_lt in Hi. f_equal.
  assert (Hcut : forall l : list byte,
            take (itemsize (dtype_of t1)) (drop (i * itemsize (dtype_of t1)) l)
            = take (itemsize (dtype_of t1))
                (drop (i * itemsize (dtype_of t1)) (take (nbytes t1) l))).
  { intros l. rewrite !take_drop_commute, take_take. do 2 f_equal.
    unfold nbytes. nia. }
  rewrite (Hcut (bytes_of w1 _)), (Hcut (bytes_of w2 _)), Hpre.
  unfold nbytes. now rewrite Hd, Hn.
Qed.

Lemma elements_of_prefix w1 w2 t1 t2 :
  dtype_of t1 = dtype_of t2 -> numel (shape t1) = numel (shape t2) ->
  take (nbytes t1) (bytes_of w1 (data t1))
  = take (nbytes t2) (bytes_of w2 (data t2)) ->
  elements_of w1 t1 = elements_of w2 t2.
Proof.
  intros Hd Hn Hpre. unfold elements_of. rewrite <- Hn.
  induction (seq 0 (numel (shape t1))) as [|i l IH]; csimpl; [done|].
  now rewrite IH, (element_prefix w1 w2 t1 t2 i Hd Hn Hpre).
Qed.

(** The elements are cut from the bytes of the storage. *)
Lemma elements_of_bytes w t l :
  bytes_of w (data t) = l ->
  elements_of w t
  = omap (fun i =>
            if (i <? numel (shape t))%nat then
              Some (take (itemsize (dtype_of t))
                      (drop (i * itemsize (dtype_of t)) l))
            else None)
      (seq 0 (numel (shape t))).
Proof. intros <-. reflexivity. Qed.

(** A tensor of [n] elements reads [n] elements. *)
Lemma length_elements_of w t : length (elements_of w t) = numel (shape t).
Proof.
  unfold elements_of.
  assert (H : forall l : list nat,
            Forall (fun i => (i < numel (shape t))%nat) l ->
            length (omap (element w t) l) = length l).
  { induction l as [|i l IH]; intros Hl; csimpl; [done|].
    inversion Hl as [|? ? Hi Hl']; subst. unfold element at 1.
    rewrite (proj2 (Nat.ltb_lt _ _) Hi). csimpl. now rewrite IH. }
  rewrite H, length_seq; [done|].
  apply Forall_forall. intros i Hi. apply elem_of_seq in Hi. lia.
Qed.

Lemma zero__eq t w :
  zero_ t w =
  (Ok t, set_storage
           (alter (write_at 0 (replicate (nbytes t) x00)) (data t)) w).
Proof. reflexivity. Qed.

Lemma fill__eq t v w :
  fill_ t v w =
  (Ok t, set_storage
           (alter (write_at 0
              (mjoin (replicate (numel (shape t))
                        (encode_scalar (dtype_of t) v)))) (data t)) w).
Proof. reflexivity. Qed.

Lemma copy__eq dst src w :
  dtype_of dst = dtype_of src -> numel (shape dst) = numel (shape src) ->
  copy_ dst src w =
  (Ok dst, set_storage
             (alter (write_at 0 (take (nbytes src) (bytes_of w (data src))))
                (data dst)) w).
Proof.
  intros Hd Hn. unfold copy_.
  destruct (decide _) as [_|Hno]; [reflexivity|].
  now contradict Hno.
Qed.

Lemma is_Some_alter w f i j :
  is_Some (storage w !! j) ->
  is_Some (storage (set_storage (alter f i) w) !! j).
Proof. intros H. simpl. now apply lookup_alter_is_Some. Qed.

Lemma is_Some_after_zero t w j :
  is_Some (storage w !! j) -> is_Some (storage (zero_ t w).2 !! j).
Proof. intros H. rewrite zero__eq. now apply is_Some_alter. Qed.

Lemma setitem_eq t i v w :
  (i < numel (shape t))%nat ->
  setitem t i v w =
  (Ok tt, set_storage
            (alter (write_at (i * itemsize (dtype_of t))
                      (encode_scalar (dtype_of t) v)) (data t)) w).
Proof.
  intros Hi. unfold setitem. now rewrite (proj2 (Nat.ltb_lt _ _) Hi).
Qed.

Lemma bytes_after_setitem t i v w :
  is_Some (storage w !! data t) -> (i < numel (shape t))%nat ->
  bytes_of (setitem t i v w).2 (data t)
  = write_at (i * itemsize (dtype_of t)) (encode_scalar (dtype_of t) v)
      (bytes_of w (data t)).
Proof.
  intros Hs Hi. rewrite setitem_eq by done. simpl.
  now rewrite bytes_of_alter_eq.
Qed.

(** After [zero_] every element is the all-zero pattern. *)
Lemma element_after_zero t w i :
  is_Some (storage w !! data t) -> (i < numel (shape t))%nat ->
  element (zero_ t w).2 t i = Some (replicate (itemsize (dtype_of t)) x00).
Proof.
  intros Hs Hi. rewrite zero__eq. simpl. unfold element.
  rewrite (proj2 (Nat.ltb_lt _ _) Hi). f_equal.
  rewrite bytes_of_alter_eq by done. unfold write_at, nbytes. simpl.
  now apply chunk_of_zeros.
Qed.

(** After [fill_(v)] every element is [v] as the element type stores it. *)
Lemma element_after_fill t v w i :
  is_Some (storage w !! data t) -> (i < numel (shape t))%nat ->
  element (fill_ t v w).2 t i = Some (encode_scalar (dtype_of t) v).
Proof.
  intros Hs Hi. rewrite fill__eq. simpl. unfold element.
  rewrite (proj2 (Nat.ltb_lt _ _) Hi). f_equal.
  rewrite bytes_of_alter_eq by done. unfold write_at. simpl.
  rewrite <- (length_encode_scalar (dtype_of t) v).
  now apply chunk_of_replicate.
Qed.

End elements.

(** ** Creation *)

Section creation.

Import OS Torch.

Lemma region_world_storage w size j :
  j <> fresh (dom (storage w)) ->
  storage (region_world w size) !! j = storage w !! j.
Proof. intros Hj. unfold region_world. simpl. now rewrite lookup_insert_ne. Qed.

Lemma region_world_bytes w size :
  bytes_of (region_world w size) (fresh (dom (storage w)))
  = replicate size x00.
Proof. unfold bytes_of, region_world. simpl. now rewrite lookup_insert_eq. Qed.

(** [empty_like] of a tensor with at least one element, on the CPU, with
    the default layout and no pinning: the tensor it returns has the shape
    and the element type asked for and lies over a storage object that holds
    all its bytes; no other storage object is touched. Without a file name
    the object is new and holds exactly the bytes of the tensor, all zero. *)
Lemma empty_like_ok input dt dev filename w :
  is_cpu dev = true ->
  (filename = None -> supported (resolved input dt) = true) ->
  (0 < numel (shape input))%nat ->
  exists t w1,
    empty_like input dt None dev false filename w = (Ok t, w1) /\
    shape t = shape input /\
    dtype_of t = resolved input dt /\
    storage_filename t = filename /\
    is_Some (storage w1 !! data t) /\
    (nbytes t <= length (bytes_of w1 (data t)))%nat /\
    (forall j, j <> data t -> storage w1 !! j = storage w !! j) /\
    (filename = None ->
     storage w !! data t = None /\
     bytes_of w1 (data t) = replicate (nbytes t) x00) /\
    (forall f, filename = Some f ->
     data t = file_ino w f /\ names w1 !! f = Some (data t)
     /\ w1 = file_world w f (nbytes t)).
Proof.
  intros Hdev Hsup Hpos.
  pose proof (itemsize_pos (resolved input dt)) as Hisz.
  destruct filename as [f|].
  - eexists _, _. split; [now apply empty_like_named|]. simpl.
    unfold nbytes. simpl.
    repeat split; try done.
    + apply file_world_is_Some. nia.
    + apply file_world_length.
    + intros j Hj. now apply file_world_other.
    + now injection H as <-.
    + injection H as <-. apply file_world_names.
    + now injection H as <-.
  - eexists _, _. split.
    { rewrite empty_like_anon by auto.
      rewrite (proj2 (Nat.eqb_neq _ 0)) by nia. reflexivity. }
    simpl. unfold nbytes. simpl. rewrite region_world_bytes.
    repeat split; try done.
    + unfold region_world. simpl. now rewrite lookup_insert_eq.
    + now rewrite length_replicate.
    + intros j Hj. now apply region_world_storage.
    + apply new_ino_fresh.
Qed.

End creation.

Section zeros_and_ones.

Import OS Torch.

(** C3, on a shape without elements: the temporary file is created with
    length zero and Python refuses to map it, so [zeros_like] raises
    instead of returning a tensor of no elements. *)
Lemma zeros_like_empty_shape_raises :
  supported float32 = true /\
  numel (shape Sample.empty_tensor) = 0%nat /\
  (zeros_like Sample.empty_tensor None None None false None
     Sample.host_with_file).1
  = Raise (ValueError "cannot mmap an empty file").
Proof. repeat split. Qed.

(** C3, as the code has it. For every supported element type and every
    shape with at least one element, on the CPU, [zeros_like] returns a
    tensor of that shape and type whose elements, as many as the shape
    counts, all are the zero of the type; without a file name its storage
    has exactly count times item size bytes. For four [float32] elements
    that is 16 bytes of zeros, and after 5.0 is written at index 2 the
    elements read 0.0, 0.0, 5.0, 0.0. *)
Theorem zeros_like_all_zero :
  (forall input dt dev filename w,
     is_cpu dev = true ->
     supported (resolved input dt) = true ->
     (0 < numel (shape input))%nat ->
     exists t w',
       zeros_like input dt None dev false filename w = (Ok t, w') /\
       shape t = shape input /\
       dtype_of t = resolved input dt /\
       length (elements_of w' t) = numel (shape input) /\
       (forall i, (i < numel (shape input))%nat ->
          element w' t i = Some (encode_scalar (resolved input dt) 0)) /\
       (filename = None ->
        length (bytes_of w' (data t))
        = (numel (shape input) * itemsize (resolved input dt))%nat)) /\
  (forall input w,
     shape input = [4%nat] -> dtype_of input = float32 ->
     exists t w1 w2,
       zeros_like input None None None false None w = (Ok t, w1) /\
       bytes_of w1 (data t) = replicate 16 x00 /\
       elements_of w1 t = replicate 4 (encode_scalar float32 0) /\
       setitem t 2 5 w1 = (Ok tt, w2) /\
       elements_of w2 t
       = [encode_scalar float32 0; encode_scalar float32 0;
          encode_scalar float32 5; encode_scalar float32 0]).
Proof.
  split.
  - intros input dt dev filename w Hdev Hsup Hpos.
    destruct (empty_like_ok input dt dev filename w Hdev (fun _ => Hsup) Hpos)
      as (t & w1 & Hrun & Hshape & Hdt & _ & Hsome & Hlen & _ & Hanon & _).
    exists t, (zero_ t w1).2. split; [|split; [|split; [|split; [|split]]]].
    + unfold zeros_like. now rewrite (bind_ok _ _ _ _ _ Hrun).
    + exact Hshape.
    + exact Hdt.
    + now rewrite length_elements_of, Hshape.
    + intros i Hi. rewrite element_after_zero by (rewrite ?Hshape; done).
      now rewrite encode_scalar_0, Hdt.
    + intros Hf. destruct (Hanon Hf) as [_ Hbytes].
      rewrite zero__eq. simpl. rewrite bytes_of_alter_eq by done.
      rewrite write_at_0_length, Hbytes, !length_replicate.
      unfold nbytes. rewrite Hshape, Hdt. lia.
  - intros input w Hshape Hdt.
    assert (Hrun : empty_like input None None None false None w
                   = (Ok {| data := fresh (dom (storage w));
                            dtype_of := float32; shape := [4%nat];
                            storage_filename := None |},
                      region_world w 16)).
    { rewrite empty_like_anon; unfold resolved; rewrite ?Hdt, ?Hshape; done. }
    set (t := {| data := fresh (dom (storage w)); dtype_of := float32;
                 shape := [4%nat]; storage_filename := None |}) in *.
    assert (Hsome : is_Some (storage (region_world w 16) !! data t)).
    { unfold region_world. simpl. now rewrite lookup_insert_eq. }
    assert (Hb1 : bytes_of (zero_ t (region_world w 16)).2 (data t)
                  = replicate 16 x00).
    { rewrite zero__eq. simpl. rewrite bytes_of_alter_eq by done.
      simpl. now rewrite region_world_bytes. }
    assert (Hs1 : is_Some (storage (zero_ t (region_world w 16)).2
                             !! data t)).
    { now apply is_Some_after_zero. }
    assert (Hz : zeros_like input None None None false None w
                 = (Ok t, (zero_ t (region_world w 16)).2)).
    { unfold zeros_like. now rewrite (bind_ok _ _ _ _ _ Hrun). }
    remember (zero_ t (region_world w 16)).2 as w1 eqn:Hw1.
    exists t, w1, (setitem t 2 5 w1).2.
    split; [|split; [|split; [|split]]].
    + exact Hz.
    + exact Hb1.
    + now rewrite (elements_of_bytes _ _ _ Hb1).
    + reflexivity.
    + assert (Hb2 : bytes_of (setitem t 2 5 w1).2 (data t)
              = write_at 8 (encode_scalar float32 5) (replicate 16 x00)).
      { rewrite bytes_after_setitem by (simpl; done || lia).
        now rewrite Hb1. }
      now rewrite (elements_of_bytes _ _ _ Hb2).
Qed.

Lemma zeros_like_all_zero_witness :
  (exists t w',
     zeros_like Sample.heap_tensor None None None false None
       Sample.host_with_file = (Ok t, w') /\
     element w' t 3 = Some (encode_scalar float32 0)) /\
  (exists t w1 w2,
     zeros_like Sample.heap_tensor None None None false None
       Sample.host_with_file = (Ok t, w1) /\
     setitem t 2 5 w1 = (Ok tt, w2) /\
     elements_of w2 t
     = [[x00; x00; x00; x00]; [x00; x00; x00; x00];
        [x00; x00; xa0; x40]; [x00; x00; x00; x00]]).
Proof.
  split.
  - destruct (proj1 zeros_like_all_zero Sample.heap_tensor None None None
                Sample.host_with_file eq_refl eq_refl ltac:(simpl; lia))
      as (t & w' & Hrun & _ & _ & _ & Hel & _).
    exists t, w'. split; [exact Hrun|]. apply Hel. simpl. lia.
  - destruct (proj2 zeros_like_all_zero Sample.heap_tensor
                Sample.host_with_file eq_refl eq_refl)
      as (t & w1 & w2 & Hrun & _ & _ & Hset & Hread).
    exists t, w1, w2. split; [exact Hrun|]. split; [exact Hset|exact Hread].
Defined.

(** C4, on a shape without elements: [ones_like] raises as [zeros_like]
    does. *)
Lemma ones_like_empty_shape_raises :
  supported float32 = true /\
  numel (shape Sample.empty_tensor) = 0%nat /\
  (ones_like Sample.empty_tensor None None None false None
     Sample.host_with_file).1
  = Raise (ValueError "cannot mmap an empty file").
Proof. repeat split. Qed.

(** C4, as the code has it. [ones_like] is [empty_like] followed by
    [fill_(1)]. For every supported element type and every shape with at
    least one element, on the CPU, it returns a tensor of that shape and
    type whose elements all are the number one as the type stores it: the
    byte 1 for the boolean type, the integer 1 for the integer types, the
    IEEE pattern of 1.0 for the floating-point types. *)
Theorem ones_like_all_one :
  (forall input dt lay dev pin filename,
     ones_like input dt lay dev pin filename
     = bind (empty_like input dt lay dev pin filename)
         (fun out => fill_ out 1)) /\
  (forall input dt dev filename w,
     is_cpu dev = true ->
     supported (resolved input dt) = true ->
     (0 < numel (shape input))%nat ->
     exists t w',
       ones_like input dt None dev false filename w = (Ok t, w') /\
       shape t = shape input /\
       dtype_of t = resolved input dt /\
       length (elements_of w' t) = numel (shape input) /\
       (forall i, (i < numel (shape input))%nat ->
          element w' t i = Some (encode_scalar (resolved input dt) 1))) /\
  encode_scalar bool 1 = [x01] /\
  (forall d, is_integer d = true ->
     encode_scalar d 1 = x01 :: replicate (itemsize d - 1) x00) /\
  encode_scalar float16 1 = [x00; x3c] /\
  encode_scalar bfloat16 1 = [x80; x3f] /\
  encode_scalar float32 1 = [x00; x00; x80; x3f] /\
  encode_scalar float64 1 = [x00; x00; x00; x00; x00; x00; xf0; x3f].
Proof.
  split; [reflexivity|]. split.
  - intros input dt dev filename w Hdev Hsup Hpos.
    destruct (empty_like_ok input dt dev filename w Hdev (fun _ => Hsup) Hpos)
      as (t & w1 & Hrun & Hshape & Hdt & _ & Hsome & _).
    exists t, (fill_ t 1 w1).2. split; [|split; [|split; [|split]]].
    + unfold ones_like. now rewrite (bind_ok _ _ _ _ _ Hrun).
    + exact Hshape.
    + exact Hdt.
    + now rewrite length_elements_of, Hshape.
    + intros i Hi. rewrite element_after_fill by (rewrite ?Hshape; done).
      now rewrite Hdt.
  - repeat split. intros d Hd. destruct d; try discriminate; reflexivity.
Qed.

Lemma ones_like_all_one_witness :
  exists t w',
    ones_like Sample.heap_tensor None None None false None
      Sample.host_with_file = (Ok t, w') /\
    element w' t 3 = Some (encode_scalar float32 1).
Proof.
  destruct (proj1 (proj2 ones_like_all_one) Sample.heap_tensor None None None
              Sample.host_with_file eq_refl eq_refl ltac:(simpl; lia))
    as (t & w' & Hrun & _ & _ & _ & Hel).
  exists t, w'. split; [exact Hrun|]. apply Hel. simpl. lia.
Defined.

End zeros_and_ones.

Section region_size.

Import OS Torch.

(** The byte width of an element as the specification words it: bits/8
    for a floating-point type, 1 for the boolean type, bits/8 for an
    integer type. *)
Definition byte_width (d : dtype) : option nat :=
  if is_floating_point d then (fun bits => bits / 8)%nat <$> finfo_bits d
  else if is_bool d then Some 1%nat
  else if is_integer d then (fun bits => bits / 8)%nat <$> iinfo_bits d
  else None.

Lemma byte_width_itemsize d :
  supported d = true -> byte_width d = Some (itemsize d).
Proof. destruct d; try discriminate; reflexivity. Qed.

Lemma read_write_at off (new old : list byte) :
  (off <= length old)%nat ->
  take (length new) (drop off (write_at off new old)) = new.
Proof.
  intros H. unfold write_at.
  rewrite drop_app_length' by (rewrite length_take; lia).
  apply take_app_length.
Qed.

(** C6, on a shape without elements: no view is returned, the mapping of
    the empty region fails. *)
Lemma empty_like_empty_shape_raises :
  supported float32 = true /\
  numel (shape Sample.empty_tensor) = 0%nat /\
  (empty_like Sample.empty_tensor None None None false None
     Sample.host_with_file).1
  = Raise (ValueError "cannot mmap an empty file").
Proof. repeat split. Qed.

(** C6, as the code has it. For every supported element type and every
    shape with at least one element, [empty_like] without a file name
    creates a region that was not there before, of element count times
    byte width bytes, where the byte width is the one of the specification;
    the region has a descriptor and no name. The view returned has the
    requested shape and element type and lies over that very region: no
    other storage changes, and what is written through the view is what
    the region holds. *)
Theorem empty_like_region_size input dt dev w :
  is_cpu dev = true ->
  supported (resolved input dt) = true ->
  (0 < numel (shape input))%nat ->
  exists t w' bw,
    empty_like input dt None dev false None w = (Ok t, w') /\
    byte_width (resolved input dt) = Some bw /\
    length (bytes_of w' (data t)) = (numel (shape input) * bw)%nat /\
    storage w !! data t = None /\
    fds w !! fresh_fd (fds w) = None /\
    fds w' !! fresh_fd (fds w) = Some (data t) /\
    names w' = names w /\
    shape t = shape input /\
    dtype_of t = resolved input dt /\
    storage_filename t = None /\
    (forall j, j <> data t -> storage w' !! j = storage w !! j) /\
    (forall i v, (i < numel (shape input))%nat ->
       exists w2,
         setitem t i v w' = (Ok tt, w2) /\
         fds w2 !! fresh_fd (fds w) = Some (data t) /\
         take (itemsize (resolved input dt))
           (drop (i * itemsize (resolved input dt)) (bytes_of w2 (data t)))
         = encode_scalar (resolved input dt) v).
Proof.
  intros Hdev Hsup Hpos.
  set (d := resolved input dt) in *.
  pose proof (itemsize_pos d) as Hisz.
  set (t := {| data := fresh (dom (storage w)); dtype_of := d;
               shape := shape input; storage_filename := None |}).
  set (size := (numel (shape input) * itemsize d)%nat).
  assert (Hrun : empty_like input dt None dev false None w
                 = (Ok t, region_world w size)).
  { rewrite empty_like_anon by auto. fold d. fold size.
    now rewrite (proj2 (Nat.eqb_neq size 0)) by (unfold size; nia). }
  assert (Hbytes : bytes_of (region_world w size) (data t)
                   = replicate size x00) by apply region_world_bytes.
  exists t, (region_world w size), (itemsize d).
  split; [exact Hrun|]. split; [now apply byte_width_itemsize|].
  split; [now rewrite Hbytes, length_replicate|].
  split; [apply new_ino_fresh|].
  split; [apply fresh_fd_fresh|].
  split; [unfold region_world; simpl; apply lookup_insert_eq|].
  do 4 (split; [reflexivity|]).
  split; [intros j Hj; now apply region_world_storage|].
  intros i v Hi.
  assert (Hsome : is_Some (storage (region_world w size) !! data t)).
  { unfold region_world. simpl. now rewrite lookup_insert_eq. }
  exists (setitem t i v (region_world w size)).2.
  split; [now rewrite setitem_eq by done|].
  split; [rewrite setitem_eq by done; simpl; apply lookup_insert_eq|].
  rewrite bytes_after_setitem by done.
  rewrite <- (length_encode_scalar d v) at 1.
  apply read_write_at. rewrite Hbytes, length_replicate.
  unfold size. simpl. nia.
Qed.

Lemma empty_like_region_size_witness :
  exists t w',
    empty_like Sample.heap_tensor None None None false None
      Sample.host_with_file = (Ok t, w') /\
    length (bytes_of w' (data t)) = 16%nat.
Proof.
  destruct (empty_like_region_size Sample.heap_tensor None None
              Sample.host_with_file eq_refl eq_refl ltac:(simpl; lia))
    as (t & w' & bw & Hrun & Hbw & Hlen & _).
  exists t, w'. split; [exact Hrun|].
  simpl in Hbw. injection Hbw as <-. exact Hlen.
Defined.

End region_size.

(** ** Complex element types *)

Section complex_types.

Import OS Torch.

(** Without a file name a complex element type is refused by all three
    constructors, whatever the shape, and nothing is created. *)
Lemma complex_rejected_without_filename input dt lay dev pin w :
  is_cpu dev = true ->
  is_complex (resolved input dt) = true ->
  empty_like input dt lay dev pin None w = (Raise (ValueError complex_msg), w)
  /\ zeros_like input dt lay dev pin None w
     = (Raise (ValueError complex_msg), w)
  /\ ones_like input dt lay dev pin None w
     = (Raise (ValueError complex_msg), w).
Proof.
  intros Hdev Hc.
  pose proof (empty_like_complex input dt lay dev pin w Hdev Hc) as H.
  unfold zeros_like, ones_like.
  now rewrite !(bind_raise _ _ _ _ _ H).
Qed.

(** With a file name the element type is never looked at: a complex type
    goes to [torch.from_file] like any other. *)
Lemma complex_accepted_with_filename input dt lay dev f w :
  is_cpu dev = true -> is_dense lay = true ->
  (0 < numel (shape input))%nat ->
  is_complex (resolved input dt) = true ->
  exists t w',
    empty_like input dt lay dev false (Some f) w = (Ok t, w')
    /\ is_complex (dtype_of t) = true.
Proof.
  intros Hdev Hlay Hpos Hc. eexists _, _.
  split; [now apply empty_like_named|]. exact Hc.
Qed.

(** C2, at [dtype=torch.complex64] with [filename="/tmp/c.bin"] and four
    elements: none of the three constructors raises; each returns a
    [complex64] tensor mapped from the file. *)
Theorem complex_with_filename_returns :
  let expected :=
    Ok {| data := 1; dtype_of := complex64; shape := [4%nat];
          storage_filename := Some "/tmp/c.bin" |} in
  is_complex complex64 = true /\
  (empty_like Sample.heap_tensor (Some complex64) None None false
     (Some "/tmp/c.bin") Sample.host_with_file).1 = expected /\
  (zeros_like Sample.heap_tensor (Some complex64) None None false
     (Some "/tmp/c.bin") Sample.host_with_file).1 = expected /\
  (ones_like Sample.heap_tensor (Some complex64) None None false
     (Some "/tmp/c.bin") Sample.host_with_file).1 = expected.
Proof. repeat split. Qed.

End complex_types.

(** ** Duplication *)

Section duplication.

Import OS Torch.

(** The bytes of the source are still there after the destination file was
    opened and grown. *)
Lemma file_world_source_bytes w f want src bs :
  storage w !! src = Some bs -> (want <= length bs)%nat ->
  bytes_of (file_world w f want) src = bs.
Proof.
  intros Hsrc Hlen.
  destruct (decide (src = file_ino w f)) as [->|Hne].
  - destruct (names w !! f) as [ino|] eqn:Hf.
    + assert (Hino : file_ino w f = ino) by (unfold file_ino; now rewrite Hf).
      rewrite Hino in *.
      rewrite (file_world_id w f want ino Hf).
      * unfold bytes_of. now rewrite Hsrc.
      * unfold bytes_of. now rewrite Hsrc.
    + pose proof (file_ino_new w f Hf). congruence.
  - unfold bytes_of. rewrite file_world_other by done. now rewrite Hsrc.
Qed.

Lemma from_tensor_no_conflict tensor filename copy_existing :
  filename = None \/ copy_existing = true \/ storage_filename tensor = None ->
  from_tensor tensor filename copy_existing
  = bind (empty_like tensor None None None false filename)
      (fun out => copy_ out tensor).
Proof.
  unfold from_tensor.
  intros [-> | [-> | ->]]; simpl; [done| |].
  - now rewrite andb_false_r.
  - now rewrite andb_false_r.
Qed.

(** What a [from_tensor] that passes the conflict check does, for a source
    with at least one element whose storage holds all its bytes. *)
Lemma from_tensor_ok tensor filename copy_existing w bs :
  filename = None \/ copy_existing = true \/ storage_filename tensor = None ->
  storage w !! data tensor = Some bs ->
  (nbytes tensor <= length bs)%nat ->
  (0 < numel (shape tensor))%nat ->
  (filename = None -> supported (dtype_of tensor) = true) ->
  exists out w',
    from_tensor tensor filename copy_existing w = (Ok out, w') /\
    shape out = shape tensor /\
    dtype_of out = dtype_of tensor /\
    storage_filename out = filename /\
    take (nbytes tensor) (bytes_of w' (data out)) = take (nbytes tensor) bs /\
    is_Some (storage w' !! data out) /\
    (forall j, j <> data out -> storage w' !! j = storage w !! j) /\
    (filename = None -> storage w !! data out = None) /\
    (forall f, filename = Some f ->
       data out = file_ino w f /\ names w' !! f = Some (data out)).
Proof.
  intros Hnc Hsrc Hlen Hpos Hsup.
  destruct (empty_like_ok tensor None None filename w eq_refl Hsup Hpos)
    as (out & w1 & Hrun & Hshape & Hdt & Hfn & Hsome & Hlen1 & Hother
        & Hanon & Hnamed).
  simpl in Hdt.
  assert (Hnb : nbytes out = nbytes tensor).
  { unfold nbytes. now rewrite Hshape, Hdt. }
  assert (Hsrc1 : bytes_of w1 (data tensor) = bs).
  { destruct filename as [f|].
    - destruct (Hnamed f eq_refl) as [_ [_ Hw1]]. rewrite Hw1.
      rewrite Hnb. now apply file_world_source_bytes.
    - destruct (Hanon eq_refl) as [Hnew _].
      unfold bytes_of. rewrite Hother by congruence. now rewrite Hsrc. }
  exists out,
    (set_storage
       (alter (write_at 0 (take (nbytes tensor) (bytes_of w1 (data tensor))))
          (data out)) w1).
  split; [|split; [|split; [|split; [|split; [|split; [|split; [|split]]]]]]].
  - rewrite from_tensor_no_conflict by done.
    rewrite (bind_ok _ _ _ _ _ Hrun).
    apply copy__eq; [exact Hdt|now rewrite Hshape].
  - exact Hshape.
  - exact Hdt.
  - exact Hfn.
  - rewrite bytes_of_alter_eq by done. rewrite Hsrc1.
    rewrite <- (length_take_le bs (nbytes tensor)) at 1 by done.
    apply take_write_at_0.
  - now apply is_Some_alter.
  - intros j Hj. simpl. rewrite lookup_alter_ne by done. now apply Hother.
  - intros Hf. now destruct (Hanon Hf).
  - intros f Hf. destruct (Hnamed f Hf) as (Hd & Hn & _). split; [done|].
    exact Hn.
Qed.

(** A file that is not there is created with exactly [want] bytes. *)
Lemma file_world_new_length w f want :
  names w !! f = None -> (0 < want)%nat ->
  length (bytes_of (file_world w f want) (file_ino w f)) = want.
Proof.
  intros Hf Hpos.
  assert (Hb : bytes_of (opened_world w f) (file_ino w f) = []).
  { unfold opened_world, file_ino, bytes_of. rewrite Hf. simpl.
    now rewrite lookup_insert_eq. }
  unfold file_world. rewrite Hb. simpl.
  rewrite (proj2 (Nat.ltb_lt 0 want)) by done.
  unfold bytes_of. simpl. rewrite lookup_insert_eq. simpl.
  apply length_resize.
Qed.

Lemma file_world_names_existing w f want ino :
  names w !! f = Some ino -> names (file_world w f want) = names w.
Proof.
  intros Hf. unfold file_world, opened_world. rewrite Hf.
  now case_match.
Qed.

Lemma file_world_names_new w f want :
  names w !! f = None ->
  names (file_world w f want) = <[f := file_ino w f]> (names w).
Proof.
  intros Hf. unfold file_world, opened_world, file_ino. rewrite Hf.
  now case_match.
Qed.

Lemma file_world_descriptors w f want :
  fds (file_world w f want) = fds w.
Proof.
  unfold file_world, opened_world.
  destruct (names w !! f); case_match; reflexivity.
Qed.

(** The bytes past [want] of a file that was there are kept. *)
Lemma file_world_tail w f want ino :
  names w !! f = Some ino ->
  drop want (bytes_of (file_world w f want) ino) = drop want (bytes_of w ino).
Proof.
  intros Hf. unfold file_world, opened_world, file_ino. rewrite Hf.
  destruct (length (bytes_of w ino) <? want)%nat eqn:E; [|reflexivity].
  apply Nat.ltb_lt in E. unfold bytes_of at 1. simpl.
  rewrite lookup_insert_eq. simpl.
  rewrite !drop_ge; [reflexivity|lia|rewrite length_resize; lia].
Qed.

(** [from_tensor] into a named file, once the conflict check is passed:
    the tensor it returns and the world it leaves. *)
Lemma from_tensor_named tensor f copy_existing w bs :
  copy_existing = true \/ storage_filename tensor = None ->
  storage w !! data tensor = Some bs ->
  (nbytes tensor <= length bs)%nat ->
  (0 < numel (shape tensor))%nat ->
  from_tensor tensor (Some f) copy_existing w =
  (Ok {| data := file_ino w f; dtype_of := dtype_of tensor;
         shape := shape tensor; storage_filename := Some f |},
   set_storage
     (alter (write_at 0 (take (nbytes tensor) bs)) (file_ino w f))
     (file_world w f (nbytes tensor))).
Proof.
  intros Hnc Hsrc Hlen Hpos.
  rewrite from_tensor_no_conflict by (right; exact Hnc).
  pose proof (empty_like_named tensor None None None f w eq_refl eq_refl Hpos)
    as Hrun.
  rewrite (bind_ok _ _ _ _ _ Hrun).
  rewrite copy__eq by reflexivity.
  change (numel (shape tensor) * itemsize (resolved tensor None))%nat
    with (nbytes tensor).
  now rewrite (file_world_source_bytes w f (nbytes tensor) _ bs Hsrc Hlen).
Qed.

(** A [float32] tensor without elements whose storage is mapped from
    [/tmp/x.bin]. *)
Definition empty_file_tensor : Tensor :=
  {| data := 0; dtype_of := float32; shape := [0%nat];
     storage_filename := Some "/tmp/x.bin" |}.

(** C1, on a source without elements that is mapped from a file, with
    [copy_existing=True] and the name of a file that is not there: the call
    passes the conflict check and then raises, because [torch.from_file]
    cannot map the empty file it has just created. *)
Lemma from_tensor_empty_source_raises :
  storage_filename empty_file_tensor = Some "/tmp/x.bin" /\
  names Sample.host_with_file !! "/tmp/new.bin" = None /\
  (from_tensor empty_file_tensor (Some "/tmp/new.bin") true
     Sample.host_with_file).1
  = Raise (RuntimeError "unable to mmap 0 bytes from file").
Proof. repeat split. Qed.

(** C1, as the code has it. When a file name is given, [copy_existing] is
    false and the storage of the source is mapped from a file,
    [from_tensor] raises its [RuntimeError], whether that file is the one
    named or another, and changes nothing. With [copy_existing] true and a
    source of at least one element the same call returns a tensor over the
    file of that name and overwrites it. When the name named a file before,
    the tensor lies over that very file, the name still names it, and the
    file holds the bytes of the source followed by what it held beyond
    them; when it named none, a new file is created under the name and
    holds exactly the bytes of the source. Nothing else changes: no other
    storage, no other name, no descriptor. *)
Theorem from_tensor_conflict :
  (forall tensor f existing w,
     storage_filename tensor = Some existing ->
     from_tensor tensor (Some f) false w
     = (Raise (RuntimeError (conflict_msg existing)), w)) /\
  (forall tensor f existing w bs,
     storage_filename tensor = Some existing ->
     storage w !! data tensor = Some bs ->
     (nbytes tensor <= length bs)%nat ->
     (0 < numel (shape tensor))%nat ->
     exists out w',
       from_tensor tensor (Some f) true w = (Ok out, w') /\
       storage_filename out = Some f /\
       shape out = shape tensor /\
       dtype_of out = dtype_of tensor /\
       names w' !! f = Some (data out) /\
       elements_of w' out = elements_of w tensor /\
       (forall ino, names w !! f = Some ino ->
          data out = ino /\
          names w' = names w /\
          bytes_of w' ino
          = (take (nbytes tensor) bs
             ++ drop (nbytes tensor) (bytes_of w ino))%list) /\
       (names w !! f = None ->
          storage w !! data out = None /\
          names w' = <[f := data out]> (names w) /\
          bytes_of w' (data out) = take (nbytes tensor) bs) /\
       (forall j, j <> data out -> storage w' !! j = storage w !! j) /\
       fds w' = fds w /\
       finalizers w' = finalizers w).
Proof.
  split.
  - intros tensor f existing w Hex. unfold from_tensor. now rewrite Hex.
  - intros tensor f existing w bs Hex Hsrc Hlen Hpos.
    pose proof (from_tensor_named tensor f true w bs (or_introl eq_refl)
                  Hsrc Hlen Hpos) as Hrun.
    set (n := nbytes tensor) in *.
    set (out := {| data := file_ino w f; dtype_of := dtype_of tensor;
                   shape := shape tensor; storage_filename := Some f |}) in *.
    set (w1 := file_world w f n) in *.
    assert (Hn : (0 < n)%nat).
    { unfold n, nbytes. pose proof (itemsize_pos (dtype_of tensor)). nia. }
    assert (Hsome : is_Some (storage w1 !! file_ino w f))
      by now apply file_world_is_Some.
    assert (Hcut : length (take n bs) = n) by now apply length_take_le.
    assert (Hbytes : bytes_of
                       (set_storage
                          (alter (write_at 0 (take n bs)) (file_ino w f)) w1)
                       (file_ino w f)
                     = (take n bs ++ drop n (bytes_of w1 (file_ino w f)))%list).
    { rewrite bytes_of_alter_eq by done. unfold write_at.
      rewrite take_0. cbn [app]. now rewrite Hcut. }
    eexists out, _. split; [exact Hrun|].
    split; [reflexivity|]. split; [reflexivity|]. split; [reflexivity|].
    split; [apply file_world_names|].
    split.
    { apply elements_of_prefix; [reflexivity|reflexivity|].
      change (nbytes out) with n. cbn [data out].
      rewrite Hbytes, take_app_length' by done.
      unfold bytes_of. now rewrite Hsrc. }
    split.
    { intros ino Hf.
      assert (Hino : file_ino w f = ino) by (unfold file_ino; now rewrite Hf).
      split; [exact Hino|].
      split; [exact (file_world_names_existing w f n ino Hf)|].
      rewrite <- Hino at 1. rewrite Hbytes, Hino. f_equal.
      now apply file_world_tail. }
    split.
    { intros Hf. split; [now apply file_ino_new|].
      split; [exact (file_world_names_new w f n Hf)|].
      cbn [data out]. rewrite Hbytes.
      rewrite drop_ge, app_nil_r; [reflexivity|].
      unfold w1. now rewrite file_world_new_length. }
    split.
    { intros j Hj. simpl. rewrite lookup_alter_ne by (cbn in Hj; congruence).
      apply file_world_other. exact Hj. }
    split; [apply file_world_descriptors|].
    unfold w1, file_world, opened_world. simpl.
    destruct (names w !! f); case_match; reflexivity.
Qed.

Lemma from_tensor_conflict_witness :
  from_tensor Sample.file_tensor (Some "/tmp/x.bin") false
    Sample.host_with_file
  = (Raise (RuntimeError (conflict_msg "/tmp/x.bin")), Sample.host_with_file)
  /\ exists out w',
       from_tensor Sample.file_tensor (Some "/tmp/x.bin") true
         Sample.host_with_file = (Ok out, w')
       /\ data out = 0%nat
       /\ names w' = names Sample.host_with_file.
Proof.
  split.
  - apply (proj1 from_tensor_conflict). reflexivity.
  - destruct (proj2 from_tensor_conflict Sample.file_tensor "/tmp/x.bin"
                "/tmp/x.bin" Sample.host_with_file (replicate 16 x07)
                eq_refl ltac:(vm_compute; reflexivity)
                ltac:(vm_compute; lia) ltac:(vm_compute; lia))
      as (out & w' & Hrun & _ & _ & _ & _ & _ & Hold & _).
    destruct (Hold 0%nat ltac:(vm_compute; reflexivity)) as (Hd & Hn & _).
    exists out, w'. split; [exact Hrun|]. split; [exact Hd|exact Hn].
Defined.

End duplication.

Section independence.

Import OS Torch.

(** A write through one tensor is not seen through a tensor over another
    storage object. *)
Lemma element_after_setitem_other t u i v w k :
  data t <> data u ->
  element (setitem t i v w).2 u k = element w u k.
Proof.
  intros Hne. unfold setitem.
  destruct (i <? numel (shape t))%nat; [|reflexivity].
  unfold element. simpl. now rewrite bytes_of_alter_ne.
Qed.

(** C5, on a source mapped from [/tmp/x.bin] that is duplicated into
    [/tmp/x.bin] with [copy_existing=True]: the result lies over the
    storage of the source, and an element written through the result is
    read through the source. *)
Lemma from_tensor_same_file_aliases :
  let r := from_tensor Sample.file_tensor (Some "/tmp/x.bin") true
             Sample.host_with_file in
  let out := {| data := 0; dtype_of := float32; shape := [4%nat];
                storage_filename := Some "/tmp/x.bin" |} in
  r.1 = Ok out /\
  data out = data Sample.file_tensor /\
  element r.2 Sample.file_tensor 0 = Some [x07; x07; x07; x07] /\
  element (setitem out 0 5 r.2).2 Sample.file_tensor 0
  = Some (encode_scalar float32 5) /\
  encode_scalar float32 5 <> [x07; x07; x07; x07].
Proof. repeat split. discriminate. Qed.

(** C5, as the code has it. Take a source with at least one element whose
    storage holds all its bytes, a call that passes the conflict check, a
    supported element type when no file name is given, and a file name,
    when one is given, that does not name the storage of the source. Then
    [from_tensor] returns a tensor of the same shape and element type over
    another storage object; its elements are those of the source, which
    are unchanged; and an element written through either tensor
    afterwards leaves every element of the other as it was. *)
Theorem from_tensor_duplicates tensor filename copy_existing w bs :
  filename = None \/ copy_existing = true \/ storage_filename tensor = None ->
  storage w !! data tensor = Some bs ->
  (nbytes tensor <= length bs)%nat ->
  (0 < numel (shape tensor))%nat ->
  (filename = None -> supported (dtype_of tensor) = true) ->
  (forall f, filename = Some f -> names w !! f <> Some (data tensor)) ->
  exists out w',
    from_tensor tensor filename copy_existing w = (Ok out, w') /\
    shape out = shape tensor /\
    dtype_of out = dtype_of tensor /\
    data out <> data tensor /\
    (filename = None -> storage w !! data out = None) /\
    (forall i, element w' out i = element w tensor i) /\
    (forall i, element w' tensor i = element w tensor i) /\
    (forall i v k,
       element (setitem out i v w').2 tensor k = element w' tensor k) /\
    (forall i v k,
       element (setitem tensor i v w').2 out k = element w' out k).
Proof.
  intros Hnc Hsrc Hlen Hpos Hsup Hfile.
  destruct (from_tensor_ok tensor filename copy_existing w bs
              Hnc Hsrc Hlen Hpos Hsup)
    as (out & w' & Hrun & Hshape & Hdt & Hfn & Hbytes & Hsome & Hother
        & Hanon & Hnamed).
  assert (Hne : data out <> data tensor).
  { destruct filename as [f|].
    - destruct (Hnamed f eq_refl) as [Hino _]. rewrite Hino.
      unfold file_ino. destruct (names w !! f) as [ino|] eqn:Hf.
      + intros ->. now apply (Hfile f eq_refl).
      + intros Heq. pose proof (new_ino_fresh w) as Hnew.
        rewrite Heq in Hnew. congruence.
    - intros Heq. pose proof (Hanon eq_refl) as Hnew.
      rewrite Heq in Hnew. congruence. }
  assert (Hkeep : bytes_of w' (data tensor) = bytes_of w (data tensor)).
  { unfold bytes_of. now rewrite Hother by done. }
  assert (Hnb : nbytes out = nbytes tensor).
  { unfold nbytes. now rewrite Hshape, Hdt. }
  exists out, w'.
  split; [exact Hrun|]. split; [exact Hshape|]. split; [exact Hdt|].
  split; [exact Hne|]. split; [exact Hanon|].
  split; [|split; [|split]].
  - intros i. apply element_prefix; [done|now rewrite Hshape|].
    rewrite Hnb, Hbytes. unfold bytes_of. now rewrite Hsrc.
  - intros i. unfold element. now rewrite Hkeep.
  - intros i v k. now apply element_after_setitem_other.
  - intros i v k. apply element_after_setitem_other. congruence.
Qed.

Lemma from_tensor_duplicates_witness :
  exists out w',
    from_tensor Sample.file_tensor (Some "/tmp/y.bin") true
      Sample.host_with_file = (Ok out, w') /\
    data out <> data Sample.file_tensor.
Proof.
  destruct (from_tensor_duplicates Sample.file_tensor (Some "/tmp/y.bin") true
              Sample.host_with_file (replicate 16 x07)
              ltac:(right; left; reflexivity)
              ltac:(vm_compute; reflexivity)
              ltac:(vm_compute; lia) ltac:(vm_compute; lia)
              ltac:(discriminate)
              ltac:(intros f [= <-]; vm_compute; discriminate))
    as (out & w' & Hrun & _ & _ & Hne & _).
  exists out, w'. split; [exact Hrun|exact Hne].
Defined.

End independence.

(** ** Failures *)

Section failures.

Import OS Torch.

Lemma supported_or_complex d : supported d = true \/ is_complex d = true.
Proof. destruct d; simpl; auto. Qed.


Lemma empty_like_anon_world input dt lay dev pin w r w' :
  empty_like input dt lay dev pin None w = (r, w') ->
  w' = w \/
  w' = region_world w
         (numel (shape input) * itemsize (resolved input dt)).
Proof.
  intros Hrun. destruct (is_cpu dev) eqn:Hdev.
  - destruct (supported_or_complex (resolved input dt)) as [Hs|Hc].
    + rewrite empty_like_anon in Hrun by done. right. congruence.
    + rewrite empty_like_complex in Hrun by done. left. congruence.
  - rewrite empty_like_device in Hrun by done. left. congruence.
Qed.













End failures.

(** * Further properties of the module *)

(** ** Arguments the factory refuses *)

Section refused_arguments.

Import OS Torch.

(** All three constructors refuse a device other than the CPU before they
    look at anything else: whatever the element type, the layout, the
    pinning and the file name, a bare [ValueError] is raised and nothing is
    created. *)
Theorem non_cpu_device_refused input dt lay dev pin filename w :
  is_cpu dev = false ->
  empty_like input dt lay dev pin filename w = (Raise (ValueError ""), w) /\
  zeros_like input dt lay dev pin filename w = (Raise (ValueError ""), w) /\
  ones_like input dt lay dev pin filename w = (Raise (ValueError ""), w).
Proof.
  intros Hdev.
  pose proof (empty_like_device input dt lay dev pin filename w Hdev) as H.
  unfold zeros_like, ones_like.
  now rewrite !(bind_raise _ _ _ _ _ H).
Qed.

Lemma non_cpu_device_refused_witness :
  zeros_like Sample.heap_tensor None None
    (Some {| dev_type := "cuda"; dev_index := Some 1%nat |}) false
    (Some "/tmp/x.bin") Sample.host_with_file
  = (Raise (ValueError ""), Sample.host_with_file).
Proof.
  apply (non_cpu_device_refused Sample.heap_tensor None None
           (Some {| dev_type := "cuda"; dev_index := Some 1%nat |}) false
           (Some "/tmp/x.bin") Sample.host_with_file).
  reflexivity.
Defined.

(** Without a file name every layout, the dense [torch.strided] included,
    and every request for pinned memory is refused with a bare
    [ValueError], and only after the region was created: the world the
    failure leaves is the world the same call without these arguments
    leaves when it succeeds. *)
Theorem layout_and_pinning_refused_late input dt lay dev pin w :
  is_cpu dev = true ->
  supported (resolved input dt) = true ->
  (0 < numel (shape input))%nat ->
  lay <> None \/ pin = true ->
  exists t w',
    empty_like input dt None dev false None w = (Ok t, w') /\
    empty_like input dt lay dev pin None w = (Raise (ValueError ""), w') /\
    zeros_like input dt lay dev pin None w = (Raise (ValueError ""), w') /\
    ones_like input dt lay dev pin None w = (Raise (ValueError ""), w') /\
    w' <> w.
Proof.
  intros Hdev Hsup Hpos Harg.
  pose proof (itemsize_pos (resolved input dt)) as Hisz.
  assert (Hnz : (numel (shape input) * itemsize (resolved input dt) =? 0)%nat
                = false) by (apply Nat.eqb_neq; nia).
  assert (Hfail : empty_like input dt lay dev pin None w
                  = (Raise (ValueError ""),
                     region_world w
                       (numel (shape input) * itemsize (resolved input dt)))).
  { rewrite empty_like_anon by done. rewrite Hnz.
    destruct lay as [l|]; [reflexivity|].
    destruct Harg as [?| ->]; [done|reflexivity]. }
  eexists _, _. split; [|split; [|split; [|split]]].
  - rewrite empty_like_anon by done. rewrite Hnz. reflexivity.
  - exact Hfail.
  - unfold zeros_like. now rewrite (bind_raise _ _ _ _ _ Hfail).
  - unfold ones_like. now rewrite (bind_raise _ _ _ _ _ Hfail).
  - intros Heq.
    assert (Hf : finalizers (region_world w
                   (numel (shape input) * itemsize (resolved input dt)))
                 = finalizers w) by now rewrite Heq.
    unfold region_world in Hf. simpl in Hf.
    apply (f_equal length) in Hf. simpl in Hf. lia.
Qed.

Lemma layout_and_pinning_refused_late_witness :
  exists t w',
    empty_like Sample.heap_tensor None None None false None
      Sample.host_with_file = (Ok t, w') /\
    empty_like Sample.heap_tensor None (Some strided) None false None
      Sample.host_with_file = (Raise (ValueError ""), w').
Proof.
  destruct (layout_and_pinning_refused_late Sample.heap_tensor None
              (Some strided) None false Sample.host_with_file
              eq_refl eq_refl ltac:(simpl; lia) ltac:(left; discriminate))
    as (t & w' & Hok & Hfail & _).
  exists t, w'. split; [exact Hok|exact Hfail].
Defined.

(** Without a file name a shape without elements is refused by all three
    constructors, for every supported element type and whatever the layout
    and the pinning: the temporary file is created with no bytes, and the
    attempt to map it raises [ValueError]. *)
Theorem empty_shape_refused input dt lay dev pin w :
  is_cpu dev = true ->
  supported (resolved input dt) = true ->
  numel (shape input) = 0%nat ->
  let failure :=
    (Raise (ValueError "cannot mmap an empty file"), region_world w 0) in
  empty_like input dt lay dev pin None w = failure /\
  zeros_like input dt lay dev pin None w = failure /\
  ones_like input dt lay dev pin None w = failure.
Proof.
  intros Hdev Hsup Hzero failure.
  assert (Hfail : empty_like input dt lay dev pin None w = failure).
  { rewrite empty_like_anon by done. now rewrite Hzero. }
  unfold zeros_like, ones_like.
  now rewrite !(bind_raise _ _ _ _ _ Hfail).
Qed.

Lemma empty_shape_refused_witness :
  ones_like
    {| data := 0; dtype_of := int64; shape := [3%nat; 0%nat; 2%nat];
       storage_filename := None |}
    None None None false None Sample.host_with_file
  = (Raise (ValueError "cannot mmap an empty file"),
     region_world Sample.host_with_file 0).
Proof.
  apply (empty_shape_refused
           {| data := 0; dtype_of := int64; shape := [3%nat; 0%nat; 2%nat];
              storage_filename := None |}
           None None None false Sample.host_with_file);
    reflexivity.
Defined.

End refused_arguments.

Lemma complex_rejected_without_filename_witness :
  ones_like Sample.heap_tensor (Some complex128) (Some sparse_coo) None true
    None Sample.host_with_file
  = (Raise (ValueError complex_msg), Sample.host_with_file).
Proof.
  apply (complex_rejected_without_filename Sample.heap_tensor
           (Some complex128) (Some sparse_coo) None true
           Sample.host_with_file); reflexivity.
Defined.

(** ** More on handlers *)

Section more_on_handlers.

Import OS.

(** What [_FileHandler(size)] does to the world, whether the mapping then
    succeeds or not: one storage object that was not there appears, holding
    [size] zero bytes; one descriptor that was not open is opened on it and
    registered for closing; and no directory entry is added or removed, so
    the file has no name. The handler is returned exactly when [size] is
    positive. *)
Theorem init_creates_unnamed_region w size r w' :
  _FileHandler.__init__ size (-1) w = (r, w') ->
  exists ino fd,
    storage w !! ino = None /\
    storage w' = <[ino := replicate size x00]> (storage w) /\
    fds w !! fd = None /\
    fds w' = <[fd := ino]> (fds w) /\
    finalizers w' = fd :: finalizers w /\
    names w' = names w /\
    ((0 < size)%nat ->
     r = Ok {| _FileHandler.size := size; _FileHandler.fd := fd;
               _FileHandler.buffer :=
                 {| map_ino := ino; map_len := size |} |}) /\
    (size = 0%nat -> r = Raise (ValueError "cannot mmap an empty file")).
Proof.
  rewrite init_new. intros [= <- <-].
  exists (fresh (dom (storage w))), (fresh_fd (fds w)).
  split; [apply new_ino_fresh|]. split; [reflexivity|].
  split; [apply fresh_fd_fresh|]. do 3 (split; [reflexivity|]).
  split.
  - intros Hpos. now rewrite (proj2 (Nat.eqb_neq size 0)) by lia.
  - now intros ->.
Qed.

Lemma init_creates_unnamed_region_witness :
  exists ino fd,
    storage (region_world Sample.host_with_file 8)
    = <[ino := replicate 8 x00]> (storage Sample.host_with_file)
    /\ fds Sample.host_with_file !! fd = None.
Proof.
  destruct (init_creates_unnamed_region Sample.host_with_file 8 _ _
              (init_new Sample.host_with_file 8))
    as (ino & fd & _ & Hst & Hfd & _).
  exists ino, fd. split; [exact Hst|exact Hfd].
Defined.

(** [_FileHandler(size, fd)] over a descriptor of the caller never changes
    the world: it creates no file and registers no finalizer. It raises
    [OSError] when the descriptor is not open, and [ValueError] when [size]
    is beyond the end of the file or when [size] is zero and the file is
    empty; otherwise it returns a handler whose buffer has [size] bytes, or
    the whole file when [size] is zero. *)
Theorem init_on_descriptor w size fd :
  fd <> -1 ->
  exists r,
    _FileHandler.__init__ size fd w = (r, w) /\
    (fds w !! fd = None -> r = Raise (OSError "Bad file descriptor")) /\
    (forall ino, fds w !! fd = Some ino ->
       let len := length (bytes_of w ino) in
       ((len < size)%nat ->
        r = Raise (ValueError "mmap length is greater than file size")) /\
       (size = 0%nat -> len = 0%nat ->
        r = Raise (ValueError "cannot mmap an empty file")) /\
       ((0 < size <= len)%nat ->
        r = Ok {| _FileHandler.size := size; _FileHandler.fd := fd;
                  _FileHandler.buffer :=
                    {| map_ino := ino; map_len := size |} |}) /\
       (size = 0%nat -> (0 < len)%nat ->
        r = Ok {| _FileHandler.size := 0; _FileHandler.fd := fd;
                  _FileHandler.buffer :=
                    {| map_ino := ino; map_len := len |} |})).
Proof.
  intros Hfd. rewrite init_given by done. unfold mmap.
  destruct (fds w !! fd) as [ino|] eqn:Hopen.
  - destruct (size =? 0)%nat eqn:E0.
    + apply Nat.eqb_eq in E0. subst size.
      destruct (length (bytes_of w ino) =? 0)%nat eqn:E1.
      * apply Nat.eqb_eq in E1. eexists. split; [reflexivity|].
        split; [done|]. intros ? [= <-]; cbv zeta.
        repeat split; intros; try reflexivity; lia.
      * apply Nat.eqb_neq in E1. eexists. split; [reflexivity|].
        split; [done|]. intros ? [= <-]; cbv zeta.
        repeat split; intros; try reflexivity; lia.
    + apply Nat.eqb_neq in E0.
      destruct (length (bytes_of w ino) <? size)%nat eqn:E1.
      * apply Nat.ltb_lt in E1. eexists. split; [reflexivity|].
        split; [done|]. intros ? [= <-]; cbv zeta.
        repeat split; intros; try reflexivity; lia.
      * apply Nat.ltb_ge in E1. eexists. split; [reflexivity|].
        split; [done|]. intros ? [= <-]; cbv zeta.
        repeat split; intros; try reflexivity; lia.
  - eexists. split; [reflexivity|]. split; [done|]. intros ino Habs.
    discriminate.
Qed.

Lemma init_on_descriptor_witness :
  _FileHandler.__init__ 24 5 Sample.host_with_file
  = (Raise (ValueError "mmap length is greater than file size"),
     Sample.host_with_file).
Proof.
  destruct (init_on_descriptor Sample.host_with_file 24 5 ltac:(lia))
    as (r & Hrun & _ & Hopen).
  destruct (Hopen 0%nat ltac:(vm_compute; reflexivity)) as (Hlong & _).
  rewrite Hrun. f_equal. apply Hlong. vm_compute. lia.
Defined.

End more_on_handlers.

(** ** More on pickling *)

Section more_on_pickling.

Import OS.

(** One pickling and unpickling of a handler whose descriptor is open and
    whose buffer is the mapping of that descriptor. *)
Lemma reduce_rebuild_step h w ino :
  _FileHandler.fd h <> -1 ->
  fds w !! _FileHandler.fd h = Some ino ->
  region_ok w h ->
  let d := {| dup_handle := fresh_fd (fds w) |} in
  let w1 := set_fds (insert (fresh_fd (fds w)) ino) w in
  let h1 := {| _FileHandler.size := _FileHandler.size h;
               _FileHandler.fd := fresh_fd (fds w);
               _FileHandler.buffer := _FileHandler.buffer h |} in
  _reduce_handler h w = (Ok (_FileHandler.size h, d), w1) /\
  _rebuild_handler (_FileHandler.size h) d w1 = (Ok h1, w1) /\
  region_ok w1 h1.
Proof.
  intros Hfd Hopen Hok d w1 h1.
  assert (Hm : mmap (fresh_fd (fds w)) (_FileHandler.size h) w1
               = (Ok (_FileHandler.buffer h), w1)).
  { pose proof (mmap_same_file (fresh_fd (fds w)) (_FileHandler.fd h)
                  (_FileHandler.size h) w1 w ino) as Hsame.
    unfold region_ok in Hok. rewrite Hok in Hsame. simpl in Hsame.
    destruct (mmap (fresh_fd (fds w)) (_FileHandler.size h) w1)
      as [r w2] eqn:Hr.
    pose proof (mmap_pure _ _ _ _ _ Hr) as ->.
    simpl in Hsame. rewrite Hsame; [done| |done|done].
    apply lookup_insert_eq. }
  split; [|split].
  - unfold _reduce_handler.
    destruct (decide (_FileHandler.fd h = -1)); [done|].
    unfold DupFd, dup, bind, ret. now rewrite Hopen.
  - unfold _rebuild_handler, detach, bind at 1, ret at 1. simpl.
    rewrite init_given by apply fresh_fd_not_sentinel.
    now rewrite Hm.
  - exact Hm.
Qed.



(** A handler rebuilt from a pickle can be pickled and rebuilt in turn:
    its descriptor is the duplicate, not [-1]. Along the chain every handler
    has its own descriptor, all open on one file, the same size and the
    same buffer; no storage is created or changed, and no finalizer is
    registered for the rebuilt handlers. *)
Theorem rebuilt_handler_pickles_again h w ino :
  _FileHandler.fd h <> -1 ->
  fds w !! _FileHandler.fd h = Some ino ->
  region_ok w h ->
  exists d1 w1 h1 d2 w2 h2,
    _reduce_handler h w = (Ok (_FileHandler.size h, d1), w1) /\
    _rebuild_handler (_FileHandler.size h) d1 w1 = (Ok h1, w1) /\
    _reduce_handler h1 w1 = (Ok (_FileHandler.size h, d2), w2) /\
    _rebuild_handler (_FileHandler.size h) d2 w2 = (Ok h2, w2) /\
    _FileHandler.size h2 = _FileHandler.size h /\
    _FileHandler.buffer h1 = _FileHandler.buffer h /\
    _FileHandler.buffer h2 = _FileHandler.buffer h /\
    _FileHandler.fd h1 <> _FileHandler.fd h /\
    _FileHandler.fd h2 <> _FileHandler.fd h /\
    _FileHandler.fd h2 <> _FileHandler.fd h1 /\
    fds w2 !! _FileHandler.fd h = Some ino /\
    fds w2 !! _FileHandler.fd h1 = Some ino /\
    fds w2 !! _FileHandler.fd h2 = Some ino /\
    storage w2 = storage w /\
    names w2 = names w /\
    finalizers w2 = finalizers w.
Proof.
  intros Hfd Hopen Hok.
  destruct (reduce_rebuild_step h w ino Hfd Hopen Hok)
    as (Hred1 & Hreb1 & Hok1).
  set (w1 := set_fds (insert (fresh_fd (fds w)) ino) w) in *.
  set (h1 := {| _FileHandler.size := _FileHandler.size h;
                _FileHandler.fd := fresh_fd (fds w);
                _FileHandler.buffer := _FileHandler.buffer h |}) in *.
  assert (Hopen1 : fds w1 !! _FileHandler.fd h1 = Some ino).
  { unfold w1. simpl. apply lookup_insert_eq. }
  destruct (reduce_rebuild_step h1 w1 ino
              (fresh_fd_not_sentinel _) Hopen1 Hok1)
    as (Hred2 & Hreb2 & _).
  simpl in Hred2, Hreb2.
  set (w2 := set_fds (insert (fresh_fd (fds w1)) ino) w1) in *.
  assert (Hne1 : fresh_fd (fds w) <> _FileHandler.fd h).
  { intros Heq. pose proof (fresh_fd_fresh (fds w)) as Hf.
    rewrite Heq in Hf. congruence. }
  assert (Hne2 : fresh_fd (fds w1) <> fresh_fd (fds w)).
  { intros Heq. pose proof (fresh_fd_fresh (fds w1)) as Hf.
    rewrite Heq in Hf. unfold w1 in Hf. simpl in Hf.
    now rewrite lookup_insert_eq in Hf. }
  assert (Hne3 : fresh_fd (fds w1) <> _FileHandler.fd h).
  { intros Heq. pose proof (fresh_fd_fresh (fds w1)) as Hf.
    rewrite Heq in Hf. unfold w1 in Hf. simpl in Hf.
    rewrite lookup_insert_ne in Hf by done. congruence. }
  eexists _, w1, h1, _, w2, _.
  split; [exact Hred1|]. split; [exact Hreb1|].
  split; [exact Hred2|]. split; [exact Hreb2|].
  simpl. do 3 (split; [reflexivity|]).
  split; [exact Hne1|]. split; [exact Hne3|]. split; [exact Hne2|].
  split; [now rewrite !lookup_insert_ne by done|].
  split; [rewrite lookup_insert_ne by done; apply lookup_insert_eq|].
  split; [apply lookup_insert_eq|]. done.
Qed.

Lemma rebuilt_handler_pickles_again_witness :
  exists d1 w1 h1 d2 w2 h2,
    _reduce_handler
      {| _FileHandler.size := 16; _FileHandler.fd := 5;
         _FileHandler.buffer := {| map_ino := 0; map_len := 16 |} |}
      Sample.host_with_file = (Ok (16%nat, d1), w1) /\
    _rebuild_handler 16 d1 w1 = (Ok h1, w1) /\
    _reduce_handler h1 w1 = (Ok (16%nat, d2), w2) /\
    _rebuild_handler 16 d2 w2 = (Ok h2, w2) /\
    _FileHandler.buffer h2 = {| map_ino := 0; map_len := 16 |}.
Proof.
  destruct (rebuilt_handler_pickles_again
              {| _FileHandler.size := 16; _FileHandler.fd := 5;
                 _FileHandler.buffer := {| map_ino := 0; map_len := 16 |} |}
              Sample.host_with_file 0%nat ltac:(simpl; lia)
              ltac:(vm_compute; reflexivity) ltac:(vm_compute; reflexivity))
    as (d1 & w1 & h1 & d2 & w2 & h2 & H1 & H2 & H3 & H4 & _ & _ & H5 & _).
  exists d1, w1, h1, d2, w2, h2. repeat split; assumption.
Defined.

End more_on_pickling.

(** ** More on directory selection *)

Section more_on_choose_dir.

(** [_choose_dir] in closed form. *)
Lemma _choose_dir_eq size w :
  _FileHandler._choose_dir size w =
  (Ok (if decide (platform w = "linux") then
         if (size <=? free_space w "/dev/shm")%nat then "/dev/shm"
         else temp_dir w
       else temp_dir w), w).
Proof.
  unfold _FileHandler._choose_dir, _FileHandler._dir_candidates,
    bind, get, ret, free_space. simpl.
  destruct (decide (platform w = "linux")); simpl; [|reflexivity].
  unfold bind, _FileHandler.statvfs, _FileHandler.get_temp_dir, get, ret.
  now destruct (_ <=? _)%nat.
Qed.

(** The directory chosen is [/dev/shm] or the temporary directory of the
    host, and nothing else; off Linux it is the temporary directory however
    much room there is. The choice is monotone in the size: when a request
    goes to [/dev/shm], so does every smaller one. *)
Theorem choose_dir_monotone w s1 s2 :
  (s1 <= s2)%nat ->
  (exists d, _FileHandler._choose_dir s2 w = (Ok d, w)
             /\ (d = "/dev/shm" \/ d = temp_dir w)) /\
  (platform w <> "linux" ->
   _FileHandler._choose_dir s2 w = (Ok (temp_dir w), w)) /\
  (_FileHandler._choose_dir s2 w = (Ok "/dev/shm", w) ->
   _FileHandler._choose_dir s1 w = (Ok "/dev/shm", w)).
Proof.
  intros Hle. rewrite !_choose_dir_eq.
  destruct (decide (platform w = "linux")) as [Hl|Hl].
  - destruct (s2 <=? free_space w "/dev/shm")%nat eqn:E2.
    + apply Nat.leb_le in E2.
      rewrite (proj2 (Nat.leb_le s1 _)) by lia.
      split; [eexists; split; [reflexivity|now left]|]. split; [done|done].
    + split; [eexists; split; [reflexivity|now right]|]. split; [done|].
      intros [= Htmp]. rewrite Htmp.
      now destruct (s1 <=? free_space w "/dev/shm")%nat.
  - split; [eexists; split; [reflexivity|now right]|]. split; done.
Qed.

Lemma choose_dir_monotone_witness :
  _FileHandler._choose_dir 10 Sample.host = (Ok "/dev/shm", Sample.host).
Proof.
  apply (proj2 (proj2 (choose_dir_monotone Sample.host 10 1000
                         ltac:(lia)))).
  vm_compute. reflexivity.
Defined.

End more_on_choose_dir.

(** ** Buffers without a file name *)

Section anonymous_buffers.

Import OS Torch.

(** What a constructor without a file name returns, in one place: the
    tensor, the world, and where the bytes are. [fill] is what the
    constructor writes after [empty_like]. *)
Lemma anonymous_creation input dt dev w :
  is_cpu dev = true ->
  supported (resolved input dt) = true ->
  (0 < numel (shape input))%nat ->
  let t := {| data := fresh (dom (storage w));
              dtype_of := resolved input dt;
              shape := shape input; storage_filename := None |} in
  let w1 := region_world w (nbytes t) in
  empty_like input dt None dev false None w = (Ok t, w1) /\
  zeros_like input dt None dev false None w = (Ok t, (zero_ t w1).2) /\
  ones_like input dt None dev false None w = (Ok t, (fill_ t 1 w1).2) /\
  storage w !! data t = None /\
  is_Some (storage w1 !! data t).
Proof.
  intros Hdev Hsup Hpos t w1.
  pose proof (itemsize_pos (resolved input dt)) as Hisz.
  assert (Hrun : empty_like input dt None dev false None w = (Ok t, w1)).
  { rewrite empty_like_anon by done.
    rewrite (proj2 (Nat.eqb_neq _ 0)) by nia. reflexivity. }
  split; [exact Hrun|]. split; [|split; [|split]].
  - unfold zeros_like. now rewrite (bind_ok _ _ _ _ _ Hrun).
  - unfold ones_like. now rewrite (bind_ok _ _ _ _ _ Hrun).
  - apply new_ino_fresh.
  - unfold w1, region_world. simpl. now rewrite lookup_insert_eq.
Qed.

(** A constructor without a file name never touches a storage that was
    there before: every tensor that could be read before the call, the
    input included, reads the same elements after it, whether the call
    returns or raises. *)
Theorem anonymous_creation_keeps_existing input dt lay dev pin w u :
  is_Some (storage w !! data u) ->
  (forall i, element (empty_like input dt lay dev pin None w).2 u i
             = element w u i) /\
  (forall i, element (zeros_like input dt lay dev pin None w).2 u i
             = element w u i) /\
  (forall i, element (ones_like input dt lay dev pin None w).2 u i
             = element w u i).
Proof.
  intros Hu.
  assert (Hkeep : forall w', w' = w \/
            w' = region_world w
                   (numel (shape input) * itemsize (resolved input dt)) ->
            bytes_of w' (data u) = bytes_of w (data u)).
  { intros w' [-> | ->]; [done|]. unfold bytes_of.
    rewrite region_world_storage; [done|]. intros Heq.
    rewrite Heq, new_ino_fresh in Hu. now destruct Hu. }
  assert (Hnew : forall t w',
            empty_like input dt lay dev pin None w = (Ok t, w') ->
            data t <> data u).
  { intros t w' Hrun Heq.
    destruct (is_cpu dev) eqn:Hdev;
      [|rewrite empty_like_device in Hrun by done; discriminate].
    destruct (supported_or_complex (resolved input dt)) as [Hs|Hc];
      [|rewrite empty_like_complex in Hrun by done; discriminate].
    rewrite empty_like_anon in Hrun by done.
    repeat case_match; try discriminate. injection Hrun as <- <-.
    simpl in Heq. rewrite <- Heq, new_ino_fresh in Hu. now destruct Hu. }
  destruct (empty_like input dt lay dev pin None w) as [r w'] eqn:Hrun.
  pose proof (Hkeep w' (empty_like_anon_world _ _ _ _ _ _ _ _ Hrun)) as Hb.
  split; [|split].
  - intros i. simpl. unfold element. now rewrite Hb.
  - intros i. unfold zeros_like, bind. rewrite Hrun.
    destruct r as [t|e]; simpl.
    + unfold element. rewrite bytes_of_alter_ne; [now rewrite Hb|].
      now apply (Hnew t w').
    + unfold element. now rewrite Hb.
  - intros i. unfold ones_like, bind. rewrite Hrun.
    destruct r as [t|e]; simpl.
    + unfold element. rewrite bytes_of_alter_ne; [now rewrite Hb|].
      now apply (Hnew t w').
    + unfold element. now rewrite Hb.
Qed.

Lemma anonymous_creation_keeps_existing_witness :
  element
    (zeros_like Sample.heap_tensor None None None false None
       Sample.host_with_file).2 Sample.file_tensor 1
  = element Sample.host_with_file Sample.file_tensor 1.
Proof.
  apply (proj1 (proj2 (anonymous_creation_keeps_existing Sample.heap_tensor
                         None None None false Sample.host_with_file
                         Sample.file_tensor ltac:(vm_compute; eauto)))).
Defined.

(** Two buffers created one after the other without a file name never
    share memory: they lie over different storage objects, and an element
    written through one leaves every element of the other as it was. *)
Theorem anonymous_buffers_never_alias input1 dt1 dev1 input2 dt2 dev2 w :
  is_cpu dev1 = true -> supported (resolved input1 dt1) = true ->
  (0 < numel (shape input1))%nat ->
  is_cpu dev2 = true -> supported (resolved input2 dt2) = true ->
  (0 < numel (shape input2))%nat ->
  exists t1 w1 t2 w2,
    empty_like input1 dt1 None dev1 false None w = (Ok t1, w1) /\
    empty_like input2 dt2 None dev2 false None w1 = (Ok t2, w2) /\
    data t1 <> data t2 /\
    (forall i v k, element (setitem t1 i v w2).2 t2 k = element w2 t2 k) /\
    (forall i v k, element (setitem t2 i v w2).2 t1 k = element w2 t1 k).
Proof.
  intros Hd1 Hs1 Hp1 Hd2 Hs2 Hp2.
  destruct (anonymous_creation input1 dt1 dev1 w Hd1 Hs1 Hp1)
    as (Hrun1 & _ & _ & _ & Hsome1).
  match type of Hrun1 with _ = (Ok ?a, ?b) =>
    set (t1 := a) in *; set (w1 := b) in * end.
  destruct (anonymous_creation input2 dt2 dev2 w1 Hd2 Hs2 Hp2)
    as (Hrun2 & _ & _ & Hnew2 & _).
  match type of Hrun2 with _ = (Ok ?a, ?b) =>
    set (t2 := a) in *; set (w2 := b) in * end.
  assert (Hne : data t1 <> data t2).
  { intros Heq. apply (proj1 (eq_None_not_Some _) Hnew2).
    rewrite <- Heq. exact Hsome1. }
  exists t1, w1, t2, w2.
  split; [exact Hrun1|]. split; [exact Hrun2|]. split; [exact Hne|].
  split; intros i v k; apply element_after_setitem_other; congruence.
Qed.

Lemma anonymous_buffers_never_alias_witness :
  exists t1 w1 t2 w2,
    empty_like Sample.heap_tensor None None None false None
      Sample.host_with_file = (Ok t1, w1) /\
    empty_like Sample.file_tensor (Some int8) None None false None w1
    = (Ok t2, w2) /\
    data t1 <> data t2.
Proof.
  destruct (anonymous_buffers_never_alias Sample.heap_tensor None None
              Sample.file_tensor (Some int8) None Sample.host_with_file
              eq_refl eq_refl ltac:(simpl; lia)
              eq_refl eq_refl ltac:(simpl; lia))
    as (t1 & w1 & t2 & w2 & H1 & H2 & Hne & _).
  exists t1, w1, t2, w2. repeat split; assumption.
Defined.

End anonymous_buffers.

(** ** Duplicating what the factory made *)

Section duplicating_created_buffers.

Import OS Torch.

Lemma storage_after_alter w f i l :
  storage w !! i = Some l ->
  storage (set_storage (alter f i) w) !! i = Some (f l).
Proof. intros H. simpl. now rewrite lookup_alter_eq, H. Qed.

(** [from_tensor] without a file name on a tensor that is not mapped from
    a file. *)
Lemma duplicate_anonymous z w1 bs :
  storage w1 !! data z = Some bs ->
  (nbytes z <= length bs)%nat ->
  (0 < numel (shape z))%nat ->
  supported (dtype_of z) = true ->
  exists out w2,
    from_tensor z None false w1 = (Ok out, w2) /\
    data out <> data z /\
    shape out = shape z /\
    dtype_of out = dtype_of z /\
    storage_filename out = None /\
    (forall i, element w2 out i = element w1 z i) /\
    (forall i, element w2 z i = element w1 z i).
Proof.
  intros Hsrc Hlen Hpos Hsup.
  destruct (from_tensor_ok z None false w1 bs (or_introl eq_refl)
              Hsrc Hlen Hpos (fun _ => Hsup))
    as (out & w2 & Hrun & Hshape & Hdt & Hfn & Hbytes & _ & Hother
        & Hanon & _).
  assert (Hne : data out <> data z).
  { intros Heq. pose proof (Hanon eq_refl) as Hnew.
    rewrite Heq in Hnew. congruence. }
  exists out, w2. split; [exact Hrun|]. split; [exact Hne|].
  split; [exact Hshape|]. split; [exact Hdt|]. split; [exact Hfn|].
  split.
  - intros i. apply element_prefix; [done|now rewrite Hshape|].
    assert (Hnb : nbytes out = nbytes z).
    { unfold nbytes. now rewrite Hshape, Hdt. }
    rewrite Hnb, Hbytes. unfold bytes_of. now rewrite Hsrc.
  - intros i. unfold element, bytes_of. now rewrite Hother by done.
Qed.

(** The round trip of creation and duplication. A buffer of zeros, or of
    ones, made without a file name can be duplicated without a file name
    for every supported element type and every shape with an element: the
    duplicate lies over another storage object, has the shape and type
    asked for, and reads all zeros, or all ones, as the original still
    does; an element written through the duplicate leaves the original as
    it was. *)
Theorem duplicate_of_created_buffer input dt dev w (one : Datatypes.bool) :
  is_cpu dev = true ->
  supported (resolved input dt) = true ->
  (0 < numel (shape input))%nat ->
  let create := if one then ones_like else zeros_like in
  let v := if one then 1 else 0 in
  exists z w1 out w2,
    create input dt None dev false None w = (Ok z, w1) /\
    from_tensor z None false w1 = (Ok out, w2) /\
    data out <> data z /\
    shape out = shape input /\
    dtype_of out = resolved input dt /\
    (forall i, (i < numel (shape input))%nat ->
       element w2 out i = Some (encode_scalar (resolved input dt) v)) /\
    (forall i, (i < numel (shape input))%nat ->
       element w2 z i = Some (encode_scalar (resolved input dt) v)) /\
    (forall i x k, element (setitem out i x w2).2 z k = element w2 z k).
Proof.
  intros Hdev Hsup Hpos create v.
  destruct (anonymous_creation input dt dev w Hdev Hsup Hpos)
    as (_ & Hzero & Hone & _ & Hsome).
  match type of Hzero with _ = (Ok ?a, (zero_ _ ?b).2) =>
    set (z := a) in *; set (w0 := b) in * end.
  set (w1 := if one then (fill_ z 1 w0).2 else (zero_ z w0).2).
  assert (Hcreate : create input dt None dev false None w = (Ok z, w1)).
  { unfold create, w1. now destruct one. }
  assert (Hel : forall i, (i < numel (shape input))%nat ->
            element w1 z i = Some (encode_scalar (resolved input dt) v)).
  { intros i Hi. unfold w1, v. destruct one.
    - now rewrite element_after_fill.
    - rewrite element_after_zero by done. now rewrite encode_scalar_0. }
  assert (Hbytes : exists bs, storage w1 !! data z = Some bs
                              /\ (nbytes z <= length bs)%nat).
  { destruct Hsome as [old Hold].
    assert (Hlen : (nbytes z <= length old)%nat).
    { pose proof (region_world_bytes w (nbytes z)) as Hb.
      unfold bytes_of in Hb. fold w0 in Hb.
      change (fresh (dom (storage w))) with (data z) in Hb.
      rewrite Hold in Hb. simpl in Hb. now rewrite Hb, length_replicate. }
    unfold w1. destruct one.
    - rewrite fill__eq. cbn [snd]. erewrite storage_after_alter by done.
      eexists. split; [reflexivity|]. rewrite write_at_0_length. lia.
    - rewrite zero__eq. cbn [snd]. erewrite storage_after_alter by done.
      eexists. split; [reflexivity|]. rewrite write_at_0_length. lia. }
  destruct Hbytes as (bs & Hsrc & Hlen).
  destruct (duplicate_anonymous z w1 bs Hsrc Hlen Hpos Hsup)
    as (out & w2 & Hrun & Hne & Hshape & Hdt & _ & Hout & Hkeep).
  exists z, w1, out, w2.
  split; [exact Hcreate|]. split; [exact Hrun|]. split; [exact Hne|].
  split; [exact Hshape|]. split; [exact Hdt|].
  split; [|split].
  - intros i Hi. rewrite Hout. now apply Hel.
  - intros i Hi. rewrite Hkeep. now apply Hel.
  - intros i x k. now apply element_after_setitem_other.
Qed.

Lemma duplicate_of_created_buffer_witness :
  exists z w1 out w2,
    zeros_like Sample.heap_tensor None None None false None
      Sample.host_with_file = (Ok z, w1) /\
    from_tensor z None false w1 = (Ok out, w2) /\
    data out <> data z /\
    element w2 out 2 = Some (encode_scalar float32 0).
Proof.
  destruct (duplicate_of_created_buffer Sample.heap_tensor None None
              Sample.host_with_file false eq_refl eq_refl
              ltac:(simpl; lia))
    as (z & w1 & out & w2 & H1 & H2 & Hne & _ & _ & Hel & _).
  exists z, w1, out, w2. split; [exact H1|]. split; [exact H2|].
  split; [exact Hne|]. apply Hel. simpl. lia.
Defined.

(** A buffer made with a file name carries that name, so [from_tensor]
    refuses to duplicate it into any file, the same or another, unless
    [copy_existing] is set; the refusal changes nothing. *)
Theorem created_with_filename_needs_copy_existing input dt dev f g w :
  is_cpu dev = true ->
  (0 < numel (shape input))%nat ->
  exists t w0 w1,
    empty_like input dt None dev false (Some f) w = (Ok t, w0) /\
    zeros_like input dt None dev false (Some f) w = (Ok t, w1) /\
    storage_filename t = Some f /\
    from_tensor t (Some g) false w0
    = (Raise (RuntimeError (conflict_msg f)), w0) /\
    from_tensor t (Some g) false w1
    = (Raise (RuntimeError (conflict_msg f)), w1).
Proof.
  intros Hdev Hpos.
  pose proof (empty_like_named input dt None dev f w Hdev eq_refl Hpos)
    as Hrun.
  eexists _, _, _. split; [exact Hrun|]. split; [|split; [|split]].
  - unfold zeros_like. rewrite (bind_ok _ _ _ _ _ Hrun). reflexivity.
  - reflexivity.
  - reflexivity.
  - reflexivity.
Qed.

Lemma created_with_filename_needs_copy_existing_witness :
  exists t w0,
    empty_like Sample.heap_tensor None None None false (Some "/tmp/y.bin")
      Sample.host_with_file = (Ok t, w0) /\
    from_tensor t (Some "/tmp/z.bin") false w0
    = (Raise (RuntimeError (conflict_msg "/tmp/y.bin")), w0).
Proof.
  destruct (created_with_filename_needs_copy_existing Sample.heap_tensor
              None None "/tmp/y.bin" "/tmp/z.bin" Sample.host_with_file
              eq_refl ltac:(simpl; lia))
    as (t & w0 & w1 & H1 & _ & _ & H2 & _).
  exists t, w0. split; [exact H1|exact H2].
Defined.

(** What [from_tensor] without a file name refuses, whatever
    [copy_existing] is and whether or not the source is mapped from a file:
    a source of a complex element type, with [ValueError] and before
    anything is created; and a source of a supported type without elements,
    with the [ValueError] of the mapping, after the empty temporary file
    was created. *)
Theorem from_tensor_refuses_complex_and_empty tensor copy_existing w :
  (is_complex (dtype_of tensor) = true ->
   from_tensor tensor None copy_existing w
   = (Raise (ValueError complex_msg), w)) /\
  (supported (dtype_of tensor) = true ->
   numel (shape tensor) = 0%nat ->
   from_tensor tensor None copy_existing w
   = (Raise (ValueError "cannot mmap an empty file"), region_world w 0)).
Proof.
  rewrite from_tensor_no_conflict by now left.
  split.
  - intros Hc. apply bind_raise. now apply empty_like_complex.
  - intros Hs Hzero. apply bind_raise.
    rewrite empty_like_anon by done. now rewrite Hzero.
Qed.

Lemma from_tensor_refuses_complex_and_empty_witness :
  from_tensor
    {| data := 0; dtype_of := complex64; shape := [2%nat];
       storage_filename := Some "/tmp/x.bin" |}
    None true Sample.host_with_file
  = (Raise (ValueError complex_msg), Sample.host_with_file)
  /\ from_tensor Sample.empty_tensor None false Sample.host_with_file
     = (Raise (ValueError "cannot mmap an empty file"),
        region_world Sample.host_with_file 0).
Proof.
  split.
  - apply (proj1 (from_tensor_refuses_complex_and_empty
                    {| data := 0; dtype_of := complex64; shape := [2%nat];
                       storage_filename := Some "/tmp/x.bin" |}
                    true Sample.host_with_file)).
    reflexivity.
  - apply (proj2 (from_tensor_refuses_complex_and_empty Sample.empty_tensor
                    false Sample.host_with_file)); reflexivity.
Defined.

End duplicating_created_buffers.

(** ** Buffers with a file name *)

Section named_buffers.

Import OS Torch.

Lemma length_mjoin_replicate (c : list byte) n :
  length (mjoin (replicate n c)) = (n * length c)%nat.
Proof.
  induction n as [|n IH]; simpl; [done|]. now rewrite length_app, IH.
Qed.

Lemma file_ino_existing w f ino :
  names w !! f = Some ino -> file_ino w f = ino.
Proof. intros H. unfold file_ino. now rewrite H. Qed.

(** A file that is not there is created with [want] zero bytes. *)
Lemma file_world_new_bytes w f want :
  names w !! f = None -> (0 < want)%nat ->
  bytes_of (file_world w f want) (file_ino w f) = replicate want x00.
Proof.
  intros Hf Hpos.
  assert (Hb : bytes_of (opened_world w f) (file_ino w f) = []).
  { unfold opened_world, file_ino, bytes_of. rewrite Hf. simpl.
    now rewrite lookup_insert_eq. }
  unfold file_world. rewrite Hb. simpl.
  rewrite (proj2 (Nat.ltb_lt 0 want)) by done.
  unfold bytes_of. simpl. rewrite lookup_insert_eq. simpl.
  apply resize_nil.
Qed.

(** [empty_like] with a file name, the CPU device, a dense layout and no
    pinning, for every shape: a shape with elements grows the file where it
    is short, a shape without elements maps the whole file and fails on an
    empty one. *)
Lemma empty_like_named_any input dt lay dev f w :
  is_cpu dev = true -> is_dense lay = true ->
  empty_like input dt lay dev false (Some f) w =
  let t := {| data := file_ino w f; dtype_of := resolved input dt;
              shape := shape input; storage_filename := Some f |} in
  let n := (numel (shape input) * itemsize (resolved input dt))%nat in
  if (0 <? n)%nat then (Ok t, file_world w f n)
  else if (length (bytes_of (opened_world w f) (file_ino w f)) =? 0)%nat
  then (Raise (RuntimeError "unable to mmap 0 bytes from file"),
        opened_world w f)
  else (Ok t, opened_world w f).
Proof.
  intros Hdev Hlay. unfold empty_like. fold (resolved input dt).
  rewrite (bind_ok _ _ _ _ _ (device_check_ok dev w Hdev)).
  unfold bind at 1. rewrite from_file_eq by done. cbv zeta.
  destruct (0 <? _)%nat; [|destruct (_ =? 0)%nat; [reflexivity|]];
    unfold bind, view, reshape, ret; simpl; rewrite Nat.mul_1_r;
    destruct (decide (numel (shape input) = numel (shape input))); done.
Qed.

(** What is written under a file name can be opened again. With the CPU
    device, the default layout, no pinning and the name of a file that is
    not there: for a shape with at least one element [ones_like] creates
    the file, which then holds the elements one after the other and nothing
    else, neither header nor padding, and [empty_like] with the same name,
    shape and type afterwards changes nothing and returns the same tensor,
    which still reads all ones; for a shape without elements [ones_like]
    raises [RuntimeError] and leaves the empty file it created under the
    name. *)
Theorem named_buffer_reopens input dt dev f w :
  is_cpu dev = true ->
  names w !! f = None ->
  ((0 < numel (shape input))%nat ->
   exists t w1,
     ones_like input dt None dev false (Some f) w = (Ok t, w1) /\
     names w1 !! f = Some (data t) /\
     storage w !! data t = None /\
     bytes_of w1 (data t)
     = mjoin (replicate (numel (shape input))
                (encode_scalar (resolved input dt) 1)) /\
     empty_like input dt None dev false (Some f) w1 = (Ok t, w1) /\
     (forall i, (i < numel (shape input))%nat ->
        element w1 t i = Some (encode_scalar (resolved input dt) 1))) /\
  (numel (shape input) = 0%nat ->
   exists ino w1,
     ones_like input dt None dev false (Some f) w
     = (Raise (RuntimeError "unable to mmap 0 bytes from file"), w1) /\
     storage w !! ino = None /\
     storage w1 = <[ino := []]> (storage w) /\
     names w1 = <[f := ino]> (names w) /\
     fds w1 = fds w /\
     finalizers w1 = finalizers w).
Proof.
  intros Hdev Hnew. split.
  - intros Hpos.
    pose proof (itemsize_pos (resolved input dt)) as Hisz.
    set (n := (numel (shape input) * itemsize (resolved input dt))%nat).
    assert (Hn : (0 < n)%nat) by (unfold n; nia).
    pose proof (empty_like_named input dt None dev f w Hdev eq_refl Hpos)
      as Hrun. fold n in Hrun.
    set (t := {| data := file_ino w f; dtype_of := resolved input dt;
                 shape := shape input; storage_filename := Some f |}) in *.
    set (w0 := file_world w f n) in *.
    assert (Hsome : is_Some (storage w0 !! data t))
      by now apply file_world_is_Some.
    assert (Hb0 : bytes_of w0 (data t) = replicate n x00)
      by now apply file_world_new_bytes.
    assert (Hb1 : bytes_of (fill_ t 1 w0).2 (data t)
                  = mjoin (replicate (numel (shape input))
                             (encode_scalar (resolved input dt) 1))).
    { rewrite fill__eq. cbn [snd]. rewrite bytes_of_alter_eq by done.
      rewrite Hb0. unfold write_at. rewrite take_0. cbn [app].
      rewrite drop_ge, app_nil_r; [reflexivity|].
      rewrite length_replicate, length_mjoin_replicate, length_encode_scalar.
      unfold n. simpl. lia. }
    assert (Hname : names (fill_ t 1 w0).2 !! f = Some (data t)).
    { rewrite fill__eq. cbn [snd]. apply file_world_names. }
    exists t, (fill_ t 1 w0).2.
    split; [|split; [|split; [|split; [|split]]]].
    + unfold ones_like. now rewrite (bind_ok _ _ _ _ _ Hrun).
    + exact Hname.
    + now apply file_ino_new.
    + exact Hb1.
    + rewrite empty_like_named by done. fold n.
      rewrite (file_ino_existing _ _ _ Hname).
      rewrite (file_world_id _ f n (data t) Hname); [reflexivity|].
      rewrite Hb1, length_mjoin_replicate, length_encode_scalar.
      unfold n. lia.
    + intros i Hi. now apply element_after_fill.
  - intros Hzero.
    exists (fresh (dom (storage w))), (opened_world w f).
    split.
    + unfold ones_like.
      apply bind_raise. rewrite empty_like_named_any by done. cbv zeta.
      rewrite Hzero. simpl.
      unfold opened_world, file_ino, bytes_of. rewrite Hnew. simpl.
      now rewrite lookup_insert_eq.
    + split; [apply new_ino_fresh|].
      unfold opened_world. rewrite Hnew. repeat split.
Qed.

Lemma named_buffer_reopens_witness :
  (exists t w1,
     ones_like Sample.heap_tensor None None None false (Some "/tmp/new.bin")
       Sample.host_with_file = (Ok t, w1) /\
     empty_like Sample.heap_tensor None None None false (Some "/tmp/new.bin")
       w1 = (Ok t, w1)) /\
  (exists ino w1,
     ones_like Sample.empty_tensor None None None false (Some "/tmp/new.bin")
       Sample.host_with_file
     = (Raise (RuntimeError "unable to mmap 0 bytes from file"), w1) /\
     names w1 !! "/tmp/new.bin" = Some ino).
Proof.
  split.
  - destruct (proj1 (named_buffer_reopens Sample.heap_tensor None None
                       "/tmp/new.bin" Sample.host_with_file eq_refl
                       ltac:(vm_compute; reflexivity))
                ltac:(simpl; lia))
      as (t & w1 & H1 & _ & _ & _ & H2 & _).
    exists t, w1. split; [exact H1|exact H2].
  - destruct (proj2 (named_buffer_reopens Sample.empty_tensor None None
                       "/tmp/new.bin" Sample.host_with_file eq_refl
                       ltac:(vm_compute; reflexivity))
                ltac:(vm_compute; reflexivity))
      as (ino & w1 & H1 & Hino & _ & Hnames & _).
    exists ino, w1. split; [exact H1|].
    rewrite Hnames. apply lookup_insert_eq.
Defined.

(** A file name that names a file is not a request for a new file. With
    the CPU device, the default layout and no pinning, over a file that is
    not empty and at least as long as the tensor, [empty_like] changes
    nothing at all and returns a view of what the file holds, and
    [zeros_like] clears the bytes of the tensor and keeps the length of the
    file and every byte after them; this holds for a shape without elements
    as well. Over an empty file, which only a shape without elements fits,
    both raise [RuntimeError] and change nothing. *)
Theorem named_file_is_reused input dt dev f ino bs w :
  is_cpu dev = true ->
  names w !! f = Some ino ->
  storage w !! ino = Some bs ->
  (numel (shape input) * itemsize (resolved input dt) <= length bs)%nat ->
  ((0 < length bs)%nat ->
   exists t w',
     empty_like input dt None dev false (Some f) w = (Ok t, w) /\
     data t = ino /\
     (forall i, (i < numel (shape input))%nat ->
        element w t i
        = Some (take (itemsize (resolved input dt))
                  (drop (i * itemsize (resolved input dt)) bs))) /\
     zeros_like input dt None dev false (Some f) w = (Ok t, w') /\
     names w' = names w /\
     bytes_of w' ino
     = (replicate (numel (shape input) * itemsize (resolved input dt)) x00
        ++ drop (numel (shape input) * itemsize (resolved input dt)) bs)%list
     /\
     length (bytes_of w' ino) = length bs) /\
  (length bs = 0%nat ->
   empty_like input dt None dev false (Some f) w
   = (Raise (RuntimeError "unable to mmap 0 bytes from file"), w) /\
   zeros_like input dt None dev false (Some f) w
   = (Raise (RuntimeError "unable to mmap 0 bytes from file"), w)).
Proof.
  intros Hdev Hname Hsrc Hlen.
  set (n := (numel (shape input) * itemsize (resolved input dt))%nat) in *.
  assert (Hb : bytes_of w ino = bs) by (unfold bytes_of; now rewrite Hsrc).
  assert (Hopen : opened_world w f = w)
    by (unfold opened_world; now rewrite Hname).
  pose proof (empty_like_named_any input dt None dev f w Hdev eq_refl)
    as Hany.
  cbv zeta in Hany. fold n in Hany.
  rewrite (file_ino_existing _ _ _ Hname), Hopen, Hb in Hany.
  split.
  - intros Hfull.
    assert (Hrun : empty_like input dt None dev false (Some f) w
                   = (Ok {| data := ino; dtype_of := resolved input dt;
                            shape := shape input;
                            storage_filename := Some f |}, w)).
    { rewrite Hany. destruct (0 <? n)%nat.
      - rewrite (file_world_id _ f n ino Hname); [reflexivity|].
        now rewrite Hb.
      - now rewrite (proj2 (Nat.eqb_neq (length bs) 0)) by lia. }
    set (t := {| data := ino; dtype_of := resolved input dt;
                 shape := shape input; storage_filename := Some f |}) in *.
    assert (Hb' : bytes_of (zero_ t w).2 ino
                  = (replicate n x00 ++ drop n bs)%list).
    { rewrite zero__eq. cbn [snd].
      rewrite (bytes_of_alter_eq w _ (data t)) by (simpl; now rewrite Hsrc).
      simpl. rewrite Hb. unfold write_at, nbytes. simpl. fold n.
      now rewrite length_replicate. }
    exists t, (zero_ t w).2.
    split; [exact Hrun|]. split; [reflexivity|].
    split; [|split; [|split; [|split]]].
    + intros i Hi. unfold element. simpl.
      rewrite (proj2 (Nat.ltb_lt _ _) Hi). now rewrite Hb.
    + unfold zeros_like. now rewrite (bind_ok _ _ _ _ _ Hrun).
    + reflexivity.
    + exact Hb'.
    + rewrite Hb', length_app, length_replicate, length_drop. lia.
  - intros Hempty.
    assert (Hrun : empty_like input dt None dev false (Some f) w
                   = (Raise (RuntimeError "unable to mmap 0 bytes from file"),
                      w)).
    { rewrite Hany.
      rewrite (proj2 (Nat.ltb_ge 0 n)) by lia. now rewrite Hempty. }
    split; [exact Hrun|]. unfold zeros_like. now apply bind_raise.
Qed.

Lemma named_file_is_reused_witness :
  (exists t,
     empty_like Sample.heap_tensor (Some int16) None None false
       (Some "/tmp/x.bin") Sample.host_with_file
     = (Ok t, Sample.host_with_file)
     /\ data t = 0%nat) /\
  (exists t,
     empty_like Sample.empty_tensor None None None false
       (Some "/tmp/x.bin") Sample.host_with_file
     = (Ok t, Sample.host_with_file)
     /\ data t = 0%nat) /\
  empty_like Sample.empty_tensor None None None false (Some "/tmp/x.bin")
    (set_storage (insert 0%nat []) Sample.host_with_file)
  = (Raise (RuntimeError "unable to mmap 0 bytes from file"),
     set_storage (insert 0%nat []) Sample.host_with_file).
Proof.
  split; [|split].
  - destruct (proj1 (named_file_is_reused Sample.heap_tensor (Some int16)
                       None "/tmp/x.bin" 0%nat (replicate 16 x07)
                       Sample.host_with_file eq_refl
                       ltac:(vm_compute; reflexivity)
                       ltac:(vm_compute; reflexivity)
                       ltac:(vm_compute; lia))
                ltac:(vm_compute; lia))
      as (t & w' & H1 & H2 & _).
    exists t. split; [exact H1|exact H2].
  - destruct (proj1 (named_file_is_reused Sample.empty_tensor None
                       None "/tmp/x.bin" 0%nat (replicate 16 x07)
                       Sample.host_with_file eq_refl
                       ltac:(vm_compute; reflexivity)
                       ltac:(vm_compute; reflexivity)
                       ltac:(vm_compute; lia))
                ltac:(vm_compute; lia))
      as (t & w' & H1 & H2 & _).
    exists t. split; [exact H1|exact H2].
  - apply (proj2 (named_file_is_reused Sample.empty_tensor None
                    None "/tmp/x.bin" 0%nat []
                    (set_storage (insert 0%nat []) Sample.host_with_file)
                    eq_refl
                    ltac:(vm_compute; reflexivity)
                    ltac:(vm_compute; reflexivity)
                    ltac:(vm_compute; lia))
             eq_refl).
Defined.

(** The conflict check of [from_tensor] has no counterpart in the three
    constructors: [zeros_like] and [ones_like] of a tensor, given the name
    of the very file that holds the storage of that tensor, return a second
    view of the same storage and overwrite every element of the input. *)
Theorem fill_over_own_file_overwrites_input input dev f bs w :
  is_cpu dev = true ->
  (0 < numel (shape input))%nat ->
  names w !! f = Some (data input) ->
  storage w !! data input = Some bs ->
  (nbytes input <= length bs)%nat ->
  exists t w0 w1,
    zeros_like input None None dev false (Some f) w = (Ok t, w0) /\
    ones_like input None None dev false (Some f) w = (Ok t, w1) /\
    data t = data input /\
    (forall i, (i < numel (shape input))%nat ->
       element w0 input i = Some (encode_scalar (dtype_of input) 0)) /\
    (forall i, (i < numel (shape input))%nat ->
       element w1 input i = Some (encode_scalar (dtype_of input) 1)).
Proof.
  intros Hdev Hpos Hname Hsrc Hlen.
  assert (Hrun : empty_like input None None dev false (Some f) w
                 = (Ok {| data := data input; dtype_of := dtype_of input;
                          shape := shape input;
                          storage_filename := Some f |}, w)).
  { rewrite empty_like_named by done.
    rewrite (file_ino_existing _ _ _ Hname).
    rewrite (file_world_id _ f _ (data input) Hname); [reflexivity|].
    unfold bytes_of. now rewrite Hsrc. }
  set (t := {| data := data input; dtype_of := dtype_of input;
               shape := shape input; storage_filename := Some f |}) in *.
  assert (Hsome : is_Some (storage w !! data t)) by (simpl; now rewrite Hsrc).
  exists t, (zero_ t w).2, (fill_ t 1 w).2.
  split; [|split; [|split; [|split]]].
  - unfold zeros_like. now rewrite (bind_ok _ _ _ _ _ Hrun).
  - unfold ones_like. now rewrite (bind_ok _ _ _ _ _ Hrun).
  - reflexivity.
  - intros i Hi.
    change (element (zero_ t w).2 t i
            = Some (encode_scalar (dtype_of t) 0)).
    rewrite element_after_zero by done. now rewrite encode_scalar_0.
  - intros i Hi.
    change (element (fill_ t 1 w).2 t i
            = Some (encode_scalar (dtype_of t) 1)).
    now apply element_after_fill.
Qed.

Lemma fill_over_own_file_overwrites_input_witness :
  exists t w0,
    zeros_like Sample.file_tensor None None None false (Some "/tmp/x.bin")
      Sample.host_with_file = (Ok t, w0) /\
    element w0 Sample.file_tensor 0 = Some (encode_scalar float32 0).
Proof.
  destruct (fill_over_own_file_overwrites_input Sample.file_tensor None
              "/tmp/x.bin" (replicate 16 x07) Sample.host_with_file
              eq_refl ltac:(simpl; lia)
              ltac:(vm_compute; reflexivity) ltac:(vm_compute; reflexivity)
              ltac:(vm_compute; lia))
    as (t & w0 & w1 & H1 & _ & _ & Hz & _).
  exists t, w0. split; [exact H1|]. apply Hz. simpl. lia.
Defined.

End named_buffers.
